(** * orapass: lookup of Oracle passwords in a .pgpass-like file

    A shallow embedding of the Go package [orapass] and the properties of
    its resolver.  The repository holds two generations of the package:

    - the [Parser] generation (type [Parser], [bufio.Scanner] line reading,
      default substitution through [coalesce]), embedded in module
      [OrapassParser];
    - the [PwRec] generation (type [PwRec], [ioutil.ReadFile] followed by
      [strings.Split]), embedded in module [OrapassPwRec].

    Go strings are byte sequences: they are modelled by [string], a list of
    [ascii] bytes.  A Go result pair [(v, err)] is modelled by a pair whose
    second component is an [option error], [None] standing for [nil].  The
    operating system (environment variables, user database, file system) is
    an explicit [World] value that every operation receives.  The debug
    trace ([carp]) only writes to the standard error stream and never
    changes a result; it is left out of the embedding. *)

From Stdlib Require Import String Ascii List Bool NArith Arith Lia.
Import ListNotations.
Open Scope string_scope.

(** ** Strings of the Go standard library *)

(** [strings.ToUpper] on one byte.  Go maps Unicode code points; on ASCII
    text, which is what the byte model covers, it turns [a]..[z] into
    [A]..[Z] and leaves every other byte alone.  On a field with a byte of
    0x80 or more Go also maps the letters outside ASCII and rewrites
    invalid UTF-8, which this model does not: there the model and the code
    can differ.  The general statements below use [ToUpper] only through
    equations that hold of Go's function as well; the concrete examples
    are all ASCII. *)
Definition upperByte (c : ascii) : ascii :=
  let n := N_of_ascii c in
  if ((97 <=? n) && (n <=? 122))%N then ascii_of_N (n - 32) else c.

Fixpoint ToUpper (s : string) : string :=
  match s with
  | EmptyString => EmptyString
  | String c s' => String (upperByte c) (ToUpper s')
  end.

(** [strings.Index(s, sep)] for a one-byte separator, returned as the text
    before and the text after the first occurrence. *)
Fixpoint cut (sep : ascii) (s : string) : option (string * string) :=
  match s with
  | EmptyString => None
  | String c s' =>
      if Ascii.eqb c sep then Some (EmptyString, s')
      else match cut sep s' with
           | Some (before, rest) => Some (String c before, rest)
           | None => None
           end
  end.

(** [strings.SplitN(s, sep, n)] for a one-byte separator and [n >= 0]: at
    most [n] substrings, the last one being the unsplit remainder. *)
Fixpoint SplitN (s : string) (sep : ascii) (n : nat) : list string :=
  match n with
  | 0 => []
  | S n' =>
      match n' with
      | 0 => [s]
      | S _ =>
          match cut sep s with
          | None => [s]
          | Some (before, rest) => before :: SplitN rest sep n'
          end
      end
  end.

(** [strings.Split(s, sep)] for a one-byte separator: every substring
    between separators, the empty ones included; never the empty list. *)
Fixpoint Split (s : string) (sep : ascii) : list string :=
  match s with
  | EmptyString => [EmptyString]
  | String c s' =>
      if Ascii.eqb c sep then EmptyString :: Split s' sep
      else match Split s' sep with
           | hd :: tl => String c hd :: tl
           | [] => [String c EmptyString]
           end
  end.

(** [regexp.MustCompile("^ *#").MatchString]: any number of space bytes
    (0x20) at the start of the text, then [#]. *)
Fixpoint commentRe (line : string) : bool :=
  match line with
  | String " " rest => commentRe rest
  | String "#" _ => true
  | _ => false
  end.

(** [fmt.Sprintf("%o", n)] for an unsigned integer: its octal digits. *)
Fixpoint octDigits (fuel : nat) (n : N) (acc : string) : string :=
  match fuel with
  | 0 => acc
  | S fuel' =>
      let acc' := String (ascii_of_N (48 + n mod 8)) acc in
      if (n / 8 =? 0)%N then acc' else octDigits fuel' (n / 8) acc'
  end.

Definition fmtOctal (n : N) : string :=
  octDigits (S (N.to_nat (N.size n))) n "".

(** ** Errors *)

(** A Go [error] value.  [SysError] is an error returned by the operating
    system through [os] or [bufio]; its flag is what [os.IsNotExist]
    answers on it.  [ErrorString] is a value made by [errors.New]. *)
Inductive error : Type :=
| SysError (notExist : bool) (text : string)
| ErrorString (text : string).

Definition errors_New (text : string) : error := ErrorString text.

Definition IsNotExist (e : error) : bool :=
  match e with
  | SysError b _ => b
  | ErrorString _ => false
  end.

(** The three errors the package makes itself. *)
Definition errNoEntry : error :=
  errors_New "Could not find a suitable password entry".

Definition errBadPerms (permissions : N) : error :=
  errors_New ("Permissions on file are incorrect. Should be 600, got "
              ++ fmtOctal permissions).

(** [bufio.ErrTooLong]. *)
Definition ErrTooLong : error := errors_New "bufio.Scanner: token too long".

(** ** The operating system *)

Inductive result (A : Type) : Type :=
| Ok (a : A)
| Err (e : error).
Arguments Ok {A} a.
Arguments Err {A} e.

(** What [os.Stat] tells about a path: whether it is a regular file, and
    its permission bits as [permbits.Stat] reports them (the nine rwx bits
    with setuid, setgid and sticky above them). *)
Record FileInfo : Type := mkFileInfo {
  IsRegular : bool;
  Perm : N
}.

(** An opened file: the bytes that can be read from it, and the I/O error
    that ends the reading after those bytes, if any. *)
Record FileData : Type := mkFileData {
  bytes : string;
  readErr : option error
}.

Record World : Type := mkWorld {
  GOOS : string;                           (* runtime.GOOS *)
  Getenv : string -> string;               (* os.Getenv, "" when unset *)
  Current : result string;                 (* user.Current(), its Username *)
  Join : list string -> string;            (* filepath.Join *)
  Stat : string -> result FileInfo;        (* os.Stat *)
  Open : string -> result FileData         (* os.Open *)
}.

(** [permbits.Stat]: the permission bits of [os.Stat], or its error.  The
    calls of one resolution all read the same state of the file system. *)
Definition permbits_Stat (w : World) (path : string) : result N :=
  match Stat w path with
  | Ok fi => Ok (Perm fi)
  | Err e => Err e
  end.

(** ** Reading lines *)

(** [bufio.MaxScanTokenSize]. *)
Definition MaxScanTokenSize : N := 65536.

(** [dropCR] of [bufio.ScanLines]: one trailing carriage return is removed. *)
Fixpoint dropCR (s : string) : string :=
  match s with
  | EmptyString => EmptyString
  | String c EmptyString => if Ascii.eqb c "013" then EmptyString else s
  | String c s' => String c (dropCR s')
  end.

(** The tokens a [bufio.Scanner] with the default [ScanLines] split function
    delivers on [data], with the value of [scanner.Err()] once [Scan] has
    answered false.  [cur] is the part of the current line already consumed.
    A line ends at a newline; the bytes after the last newline form a last
    token when there are any; a line of [MaxScanTokenSize] bytes or more
    stops the scan with [ErrTooLong]; the read error of the file, if any,
    shows once the bytes before it are consumed. *)
Fixpoint scanFrom (cur : string) (data : string) (rerr : option error)
  : list string * option error :=
  match data with
  | EmptyString =>
      if (cur =? "")%string then ([], rerr)
      else if (N.of_nat (String.length cur) <? MaxScanTokenSize)%N
           then ([dropCR cur], rerr)
           else ([], Some ErrTooLong)
  | String c data' =>
      if Ascii.eqb c "010" then
        if (N.of_nat (String.length cur) <? MaxScanTokenSize)%N then
          let (toks, e) := scanFrom "" data' rerr in (dropCR cur :: toks, e)
        else ([], Some ErrTooLong)
      else scanFrom (cur ++ String c "") data' rerr
  end.

Definition scanLines (f : FileData) : list string * option error :=
  scanFrom "" (bytes f) (readErr f).

(** ** The [Parser] generation of the package *)

Module OrapassParser.

(** [type Parser struct]. *)
Record Parser : Type := mkParser {
  Host : string;
  Port : string;
  DbName : string;
  Username : string;
  Password : string;
  OrapassFile : string;
  files : list string;
  Debug : bool
}.

(** The zero value of the struct, as [var p2 Parser] declares it. *)
Definition zero : Parser := mkParser "" "" "" "" "" "" [] false.

Definition setHost (v : string) (p : Parser) : Parser :=
  mkParser v (Port p) (DbName p) (Username p) (Password p)
           (OrapassFile p) (files p) (Debug p).
Definition setPort (v : string) (p : Parser) : Parser :=
  mkParser (Host p) v (DbName p) (Username p) (Password p)
           (OrapassFile p) (files p) (Debug p).
Definition setDbName (v : string) (p : Parser) : Parser :=
  mkParser (Host p) (Port p) v (Username p) (Password p)
           (OrapassFile p) (files p) (Debug p).
Definition setUsername (v : string) (p : Parser) : Parser :=
  mkParser (Host p) (Port p) (DbName p) v (Password p)
           (OrapassFile p) (files p) (Debug p).
Definition setPassword (v : string) (p : Parser) : Parser :=
  mkParser (Host p) (Port p) (DbName p) (Username p) v
           (OrapassFile p) (files p) (Debug p).
Definition setOrapassFile (v : string) (p : Parser) : Parser :=
  mkParser (Host p) (Port p) (DbName p) (Username p) (Password p)
           v (files p) (Debug p).
Definition setFiles (v : list string) (p : Parser) : Parser :=
  mkParser (Host p) (Port p) (DbName p) (Username p) (Password p)
           (OrapassFile p) v (Debug p).

(** [coalesce] picks the first non-empty string from a list. *)
Fixpoint coalesce (s : list string) : string :=
  match s with
  | [] => ""
  | v :: rest => if negb (v =? "") then v else coalesce rest
  end.

(** [chkForMatch]: the calling parameter against the file parameter. *)
Definition chkForMatch (callingParm fileParm : string) : bool :=
  if ToUpper callingParm =? ToUpper fileParm then true
  else if (fileParm =? "*") && negb (callingParm =? "") then true
  else false.

(** [pickParm] chooses between the calling and the file parameter. *)
Definition pickParm (callingParm fileParm : string) : string :=
  if negb (fileParm =? "*") && negb (fileParm =? "") then fileParm
  else callingParm.

(** [appendFileList]: a non-empty path is appended to [p.files]. *)
Definition appendFileList (f : string) (p : Parser) : Parser :=
  if negb (f =? "") then setFiles (files p ++ [f]) p else p.

(** [fileExists]: the path exists and is a regular file.  A missing file is
    not an error; any other failure of [os.Stat] is. *)
Definition fileExists (w : World) (pathname : string) : bool * option error :=
  match Stat w pathname with
  | Err e => if IsNotExist e then (false, None) else (false, Some e)
  | Ok fi => if IsRegular fi then (true, None) else (false, None)
  end.

(** The loop of [findPasswordFile] over [p.files]. *)
Fixpoint findLoop (w : World) (fs : list string) (p : Parser)
  : Parser * option error :=
  match fs with
  | [] => (p, None)
  | f :: rest =>
      match fileExists w f with
      | (_, Some e) => (p, Some e)
      | (true, None) => (setOrapassFile f p, None)
      | (false, None) => findLoop w rest p
      end
  end.

(** The first half of [findPasswordFile]: the calls of [appendFileList]
    that extend the candidate list [p.files]. *)
Definition addCandidates (w : World) (p : Parser) : Parser :=
  let p := appendFileList (OrapassFile p) p in
  let p := appendFileList (Getenv w "ORAPASSFILE") p in
  if GOOS w =? "windows" then
    let dir := Getenv w "APPDATA" in
    let p := appendFileList (Join w [dir; "oracle"; ".orapass"]) p in
    appendFileList (Join w [dir; "oracle"; "orapass"]) p
  else
    let dir := Getenv w "HOME" in
    let p := appendFileList (Join w [dir; ".orapass"]) p in
    appendFileList (Join w [dir; "orapass"]) p.

(** [findPasswordFile]: the candidate list is extended, then searched; the
    receiver is returned with its [files] and [OrapassFile] as the method
    leaves them. *)
Definition findPasswordFile (w : World) (p : Parser) : Parser * option error :=
  let p := addCandidates w p in
  findLoop w (files p) p.

(** [checkFilePerms] verifies the permissions on the orapass file. *)
Definition checkFilePerms (w : World) (p : Parser) : bool * option error :=
  match permbits_Stat w (OrapassFile p) with
  | Err e => (false, Some e)
  | Ok permissions =>
      if negb (permissions =? 384)%N   (* 0600 *)
      then (true, Some (errBadPerms permissions))
      else (true, None)
  end.

(** One pass of the loop body of [searchFile] on a line: [None] when the
    loop goes on to the next line, the composed record when it returns. *)
Definition tryLine (p : Parser) (line : string) : option Parser :=
  if commentRe line then None
  else
    match SplitN line ":" 5 with
    | t0 :: t1 :: t2 :: t3 :: t4 :: _ =>
        let hostMatch := chkForMatch (Host p) t0 in
        let portMatch := chkForMatch (Port p) t1 in
        let dbNameMatch := chkForMatch (DbName p) t2 in
        let userMatch := chkForMatch (Username p) t3 in
        if hostMatch && portMatch && dbNameMatch && userMatch then
          let p2 := zero in
          let p2 := setHost (pickParm (Host p) t0) p2 in
          let p2 := setPort (pickParm (Port p) t1) p2 in
          let p2 := setDbName (pickParm (DbName p) t2) p2 in
          let p2 := setUsername t3 p2 in
          let p2 := setPassword t4 p2 in
          Some p2
        else None
    | _ => None     (* len(tokens) < 5 *)
    end.

(** The [for scanner.Scan()] loop over the tokens of the scanner. *)
Fixpoint scanLoop (p : Parser) (lines : list string) : option Parser :=
  match lines with
  | [] => None
  | line :: rest =>
      match tryLine p line with
      | Some p2 => Some p2
      | None => scanLoop p rest
      end
  end.

(** [searchFile] searches the orapass file for a matching entry. *)
Definition searchFile (w : World) (p : Parser) : Parser * option error :=
  let p2 := zero in
  match Open w (OrapassFile p) with
  | Err e => (p2, Some e)
  | Ok file =>
      let (lines, scanErr) := scanLines file in
      match scanLoop p lines with
      | Some found => (found, None)
      | None =>
          match scanErr with
          | Some e => (p2, Some e)
          | None => (p2, Some errNoEntry)
          end
      end
  end.

(** The default substitution at the head of [GetPasswd]. *)
Definition applyDefaults (w : World) (p : Parser) : Parser :=
  let osUser := match Current w with Ok u => u | Err _ => "" end in
  let p := setHost (coalesce [Host p; Getenv w "ORACLE_HOST"; "localhost"]) p in
  let p := setPort (coalesce [Port p; Getenv w "ORACLE_PORT"; "1521"]) p in
  let p := setDbName (coalesce [DbName p; Getenv w "ORACLE_SID"]) p in
  setUsername (coalesce [Username p; Getenv w "ORACLE_USER"; osUser]) p.

(** [GetPasswd].  The method has a pointer receiver that it updates; the
    first component of the result is the receiver after the call, the
    second is the pair the method returns. *)
Definition GetPasswd (w : World) (p : Parser)
  : Parser * (Parser * option error) :=
  let p := applyDefaults w p in
  let p2 := zero in
  match findPasswordFile w p with
  | (p, Some err) => (p, (p2, Some err))
  | (p, None) =>
      if negb (GOOS w =? "windows") then
        match checkFilePerms w p with
        | (_, Some err) => (p, (p2, Some err))
        | (_, None) => (p, searchFile w p)
        end
      else (p, searchFile w p)
  end.

End OrapassParser.

(** ** The [PwRec] generation of the package *)

Module OrapassPwRec.

(** [type PwRec struct]. *)
Record PwRec : Type := mkPwRec {
  Host : string;
  Port : string;
  DbName : string;
  Username : string;
  Password : string;
  OrapassFile : string
}.

Definition zero : PwRec := mkPwRec "" "" "" "" "" "".

Definition setOrapassFile (v : string) (p : PwRec) : PwRec :=
  mkPwRec (Host p) (Port p) (DbName p) (Username p) (Password p) v.

(** [chkForMatch]: in this generation the wildcard needs nothing of the
    calling parameter. *)
Definition chkForMatch (callingParm fileParm : string) : bool :=
  if ToUpper callingParm =? ToUpper fileParm then true
  else if fileParm =? "*" then true
  else false.

Definition pickParm (callingParm fileParm : string) : string :=
  if negb (fileParm =? "*") && negb (fileParm =? "") then fileParm
  else callingParm.

Definition fileExists (w : World) (pathname : string) : bool * option error :=
  match Stat w pathname with
  | Err e => if IsNotExist e then (false, None) else (false, Some e)
  | Ok fi => if IsRegular fi then (true, None) else (false, None)
  end.

Fixpoint findLoop (w : World) (fs : list string) (p : PwRec)
  : PwRec * option error :=
  match fs with
  | [] => (p, None)
  | f :: rest =>
      match fileExists w f with
      | (_, Some e) => (p, Some e)
      | (true, None) => (setOrapassFile f p, None)
      | (false, None) => findLoop w rest p
      end
  end.

(** The candidate list of [findPasswordFile]: here the two default paths
    are appended whatever they are. *)
Definition candidates (w : World) (p : PwRec) : list string :=
  let files : list string := [] in
  let files :=
    if negb (OrapassFile p =? "") then (files ++ [OrapassFile p])%list
    else files in
  let f := Getenv w "ORAPASSFILE" in
  let files := if negb (f =? "") then (files ++ [f])%list else files in
  if GOOS w =? "windows" then
    let dir := Getenv w "APPDATA" in
    ((files ++ [Join w [dir; "oracle"; ".orapass"]])
       ++ [Join w [dir; "oracle"; "orapass"]])%list
  else
    let dir := Getenv w "HOME" in
    ((files ++ [Join w [dir; ".orapass"]]) ++ [Join w [dir; "orapass"]])%list.

Definition findPasswordFile (w : World) (p : PwRec) : PwRec * option error :=
  findLoop w (candidates w p) p.

Definition checkFilePerms (w : World) (p : PwRec) : bool * option error :=
  match permbits_Stat w (OrapassFile p) with
  | Err e => (false, Some e)
  | Ok permissions =>
      if negb (permissions =? 384)%N   (* 0600 *)
      then (true, Some (errBadPerms permissions))
      else (true, None)
  end.

(** [ioutil.ReadFile]: the whole content, or the error of the opening or of
    the reading. *)
Definition ReadFile (w : World) (path : string) : result string :=
  match Open w path with
  | Err e => Err e
  | Ok file =>
      match readErr file with
      | Some e => Err e
      | None => Ok (bytes file)
      end
  end.

Definition tryLine (p : PwRec) (line : string) : option PwRec :=
  if commentRe line then None
  else
    match SplitN line ":" 5 with
    | t0 :: t1 :: t2 :: t3 :: t4 :: _ =>
        let hostMatch := chkForMatch (Host p) t0 in
        let portMatch := chkForMatch (Port p) t1 in
        let dbNameMatch := chkForMatch (DbName p) t2 in
        let userMatch := chkForMatch (Username p) t3 in
        if hostMatch && portMatch && dbNameMatch && userMatch then
          Some (mkPwRec (pickParm (Host p) t0) (pickParm (Port p) t1)
                        (pickParm (DbName p) t2) t3 t4 "")
        else None
    | _ => None
    end.

Fixpoint scanLoop (p : PwRec) (lines : list string) : option PwRec :=
  match lines with
  | [] => None
  | line :: rest =>
      match tryLine p line with
      | Some p2 => Some p2
      | None => scanLoop p rest
      end
  end.

Definition searchFile (w : World) (p : PwRec) : PwRec * option error :=
  let p2 := zero in
  match ReadFile w (OrapassFile p) with
  | Err e => (p2, Some e)
  | Ok s =>
      let lines := Split s "010" in
      match scanLoop p lines with
      | Some found => (found, None)
      | None => (p2, Some errNoEntry)
      end
  end.

(** [GetPasswd]; the first component is the receiver after the call. *)
Definition GetPasswd (w : World) (p : PwRec) : PwRec * (PwRec * option error) :=
  let p2 := zero in
  match findPasswordFile w p with
  | (p, Some err) => (p, (p2, Some err))
  | (p, None) =>
      if negb (GOOS w =? "windows") then
        match checkFilePerms w p with
        | (_, Some err) => (p, (p2, Some err))
        | (_, None) => (p, searchFile w p)
        end
      else (p, searchFile w p)
  end.

End OrapassPwRec.

(** ** Concrete worlds *)

(** [filepath.Join] on a Unix-like system, for elements that are already
    clean: the non-empty elements, separated by a slash. *)
Fixpoint joinUnix (elems : list string) : string :=
  match elems with
  | [] => ""
  | e :: rest =>
      if e =? "" then joinUnix rest
      else match joinUnix rest with
           | EmptyString => e
           | r => e ++ "/" ++ r
           end
  end.

Definition errENOENT (path : string) : error :=
  SysError true ("stat " ++ path ++ ": no such file or directory").

(** A Linux system with one user, [scott], whose home directory holds the
    file [.orapass] with the given mode and content, and a directory
    [/tmp/dir]; nothing else exists and no environment variable but [HOME]
    is set. *)
Definition homeWorld (mode : N) (content : string) : World :=
  mkWorld "linux"
    (fun name => if name =? "HOME" then "/home/scott" else "")
    (Ok "scott")
    joinUnix
    (fun path =>
       if path =? "/home/scott/.orapass" then Ok (mkFileInfo true mode)
       else if path =? "/tmp/dir" then Ok (mkFileInfo false 493)
       else Err (errENOENT path))
    (fun path =>
       if path =? "/home/scott/.orapass" then Ok (mkFileData content None)
       else Err (SysError true ("open " ++ path ++ ": no such file or directory"))).

(** A Linux system with no orapass file at all: the directory [/tmp/dir]
    (mode 0755) is all there is. *)
Definition emptyWorld : World :=
  mkWorld "linux"
    (fun name => if name =? "HOME" then "/home/scott" else "")
    (Ok "scott")
    joinUnix
    (fun path =>
       if path =? "/tmp/dir" then Ok (mkFileInfo false 493)
       else Err (errENOENT path))
    (fun path => Err (SysError true ("open " ++ path ++ ": no such file or directory"))).

Definition nl : string := String "010" "".

(** The orapass file of the package's tests. *)
Definition testFile : string :=
  "localhost:1521:emp:scott:tiger" ++ nl ++
  "localhost:1521:*:scott:lion" ++ nl ++
  "localhost:1522:emp:scott:bear" ++ nl ++
  "localhost:*:emp:scott:cat" ++ nl ++
  "otherhost:*:emp:scott:elephant" ++ nl ++
  "otherhost:1521:newemp:eve:seal" ++ nl ++
  "*:1521:oldemp:alice:wolf" ++ nl.

Definition query (h po d u : string) : OrapassParser.Parser :=
  OrapassParser.mkParser h po d u "" "" [] false.

Definition queryRec (h po d u : string) : OrapassPwRec.PwRec :=
  OrapassPwRec.mkPwRec h po d u "" "".

Definition tab : string := String "009" "".

(** A file whose only entry has colons in its password. *)
Definition colonFile : string := "host:1521:db:user:pa:ss:word" ++ nl.

(** A file whose only entry has an empty password. *)
Definition emptyPasswordFile : string := "host:1521:db:user:" ++ nl.

(** A file of comments and blank lines. *)
Definition commentFile : string :=
  "# orapass" ++ nl ++ nl ++ "   # host:port:db:user:password" ++ nl
  ++ "#localhost:1521:emp:scott:tiger" ++ nl ++ "  " ++ nl.

(** ** Notions used in the statements *)

(** The bytes of [s] hold no occurrence of [sep]. *)
Fixpoint freeOf (sep : ascii) (s : string) : bool :=
  match s with
  | EmptyString => true
  | String c s' => negb (Ascii.eqb c sep) && freeOf sep s'
  end.

(** The text of a file entry with the given five fields. *)
Definition entry (host port database username password : string) : string :=
  host ++ ":" ++ port ++ ":" ++ database ++ ":" ++ username ++ ":" ++ password.

(** The number an octal numeral denotes, read from the left. *)
Fixpoint readOctal (v : N) (s : string) : N :=
  match s with
  | EmptyString => v
  | String c s' => readOctal (v * 8 + (N_of_ascii c - 48)) s'
  end.

(** White space in the usual sense: space, tab, line feed, vertical tab,
    form feed, carriage return. *)
Definition isSpaceByte (c : ascii) : bool :=
  let n := N_of_ascii c in ((n =? 32) || ((9 <=? n) && (n <=? 13)))%N.

(** A blank line: nothing but white space. *)
Fixpoint isBlank (line : string) : bool :=
  match line with
  | EmptyString => true
  | String c rest => isSpaceByte c && isBlank rest
  end.

(** A comment in the words of the specification: optional leading white
    space, then [#]. *)
Fixpoint wsThenHash (line : string) : bool :=
  match line with
  | EmptyString => false
  | String c rest =>
      if Ascii.eqb c "#" then true
      else if isSpaceByte c then wsThenHash rest else false
  end.

(** The lines the scan passes over: blank, fewer than five fields, or a
    comment as the regular expression of [searchFile] defines it. *)
Definition skipped (line : string) : Prop :=
  isBlank line = true
  \/ length (SplitN line ":" 5) < 5
  \/ commentRe line = true.

(** Two receivers that differ at most in [files] and [OrapassFile]. *)
Definition sameQuery (p q : OrapassParser.Parser) : Prop :=
  OrapassParser.Host q = OrapassParser.Host p
  /\ OrapassParser.Port q = OrapassParser.Port p
  /\ OrapassParser.DbName q = OrapassParser.DbName p
  /\ OrapassParser.Username q = OrapassParser.Username p.

(** ** Notions used in the further properties *)

(** The text made of the given lines, each followed by [term]. *)
Fixpoint terminated (term : string) (lines : list string) : string :=
  match lines with
  | [] => ""
  | line :: rest => line ++ term ++ terminated term rest
  end.

(** [n] space bytes. *)
Fixpoint spaces (n : nat) : string :=
  match n with
  | 0 => ""
  | S n' => String " " (spaces n')
  end.

(** [n] times the byte [c]. *)
Fixpoint repeatByte (n : nat) (c : ascii) : string :=
  match n with
  | 0 => ""
  | S n' => String c (repeatByte n' c)
  end.

(** A line the scanner can hold: no newline in it, and fewer bytes than
    [MaxScanTokenSize]. *)
Definition scannable (line : string) : Prop :=
  freeOf "010" line = true
  /\ (N.of_nat (String.length line) < MaxScanTokenSize)%N.

(** The line ending of a DOS text file: carriage return, line feed. *)
Definition crlf : string := String "013" (String "010" "").

(** A line of exactly [MaxScanTokenSize] bytes. *)
Definition longLine : string := repeatByte (N.to_nat MaxScanTokenSize) "x".

(** A candidate path the discovery loop passes over without an error: it
    does not exist, or it exists and is not a regular file. *)
Definition passedOver (w : World) (f : string) : Prop :=
  match Stat w f with
  | Ok fi => IsRegular fi = false
  | Err e => IsNotExist e = true
  end.

(** [filepath.Join] on Windows, for elements that are already clean. *)
Fixpoint joinWindows (elems : list string) : string :=
  match elems with
  | [] => ""
  | e :: rest =>
      if e =? "" then joinWindows rest
      else match joinWindows rest with
           | EmptyString => e
           | r => e ++ "\" ++ r
           end
  end.

(** A Windows system whose application-data directory holds the file
    [oracle\.orapass] with the given mode and content. *)
Definition windowsWorld (mode : N) (content : string) : World :=
  mkWorld "windows"
    (fun name => if name =? "APPDATA" then "C:\Users\scott\AppData" else "")
    (Ok "scott")
    joinWindows
    (fun path =>
       if path =? "C:\Users\scott\AppData\oracle\.orapass"
       then Ok (mkFileInfo true mode)
       else Err (SysError true ("CreateFile " ++ path ++ ": file not found")))
    (fun path =>
       if path =? "C:\Users\scott\AppData\oracle\.orapass"
       then Ok (mkFileData content None)
       else Err (SysError true ("open " ++ path ++ ": file not found"))).

(** A Linux system where the explicit file [/etc/orapass] cannot be
    examined (permission denied on the directory) while the file in the
    home directory is in order. *)
Definition deniedWorld (content : string) : World :=
  mkWorld "linux"
    (fun name => if name =? "HOME" then "/home/scott" else "")
    (Ok "scott")
    joinUnix
    (fun path =>
       if path =? "/home/scott/.orapass" then Ok (mkFileInfo true 384)
       else if path =? "/etc/orapass"
            then Err (SysError false "stat /etc/orapass: permission denied")
            else Err (errENOENT path))
    (fun path =>
       if path =? "/home/scott/.orapass" then Ok (mkFileData content None)
       else Err (SysError false ("open " ++ path ++ ": permission denied"))).

(** A Linux system like [homeWorld], mode 0600, where opening the file of
    the home directory gives [opened]: an error, or a file whose reading
    may break off. *)
Definition brokenWorld (opened : result FileData) : World :=
  mkWorld "linux"
    (fun name => if name =? "HOME" then "/home/scott" else "")
    (Ok "scott")
    joinUnix
    (fun path =>
       if path =? "/home/scott/.orapass" then Ok (mkFileInfo true 384)
       else Err (errENOENT path))
    (fun path =>
       if path =? "/home/scott/.orapass" then opened
       else Err (SysError true ("open " ++ path ++ ": no such file or directory"))).

(** The outcome of the discovery loop on a list of candidates: the first
    candidate that is a regular file, or the first error of [os.Stat] that
    is not "does not exist", whichever comes first; nothing when the list
    is exhausted. *)
Fixpoint firstHit (w : World) (fs : list string) : option (result string) :=
  match fs with
  | [] => None
  | f :: rest =>
      match Stat w f with
      | Ok fi => if IsRegular fi then Some (Ok f) else firstHit w rest
      | Err e => if IsNotExist e then firstHit w rest else Some (Err e)
      end
  end.

(** The candidates one call of [findPasswordFile] adds for the explicit
    path [explicit]: the non-empty ones among the explicit path, the value
    of ORAPASSFILE and the two default paths of the platform. *)
Definition newCandidates (w : World) (explicit : string) : list string :=
  filter (fun f => negb (f =? ""))
    (if GOOS w =? "windows" then
       [explicit; Getenv w "ORAPASSFILE";
        Join w [Getenv w "APPDATA"; "oracle"; ".orapass"];
        Join w [Getenv w "APPDATA"; "oracle"; "orapass"]]
     else
       [explicit; Getenv w "ORAPASSFILE";
        Join w [Getenv w "HOME"; ".orapass"];
        Join w [Getenv w "HOME"; "orapass"]]).

(** What [GetPasswd] does once discovery has ended without an error:
    permission check off Windows, then the scan. *)
Definition afterDiscovery (w : World) (p1 : OrapassParser.Parser)
  : OrapassParser.Parser * option error :=
  if negb (GOOS w =? "windows") then
    match OrapassParser.checkFilePerms w p1 with
    | (_, Some err) => (OrapassParser.zero, Some err)
    | (_, None) => OrapassParser.searchFile w p1
    end
  else OrapassParser.searchFile w p1.

(** ** The command [cmd/orapass.go] *)

Module OrapassCmd.

(** The flags of the command as [flag.Parse] has stored them: [-u], [-h],
    [-p], [-d], [-f], [-debug] and [-q]. *)
Record Flags : Type := mkFlags {
  flagU : string;
  flagH : string;
  flagP : string;
  flagD : string;
  flagF : string;
  flagDebug : bool;
  flagQ : bool
}.

(** What a run of the command leaves: the text [main] writes to the
    standard output, the text [main] itself writes to the standard error
    stream (the debug trace of the library is left out here as in the rest
    of the embedding), and the exit status. *)
Record Outcome : Type := mkOutcome {
  stdout : string;
  stderr : string;
  exitStatus : N
}.

(** [err.Error()]: the text of an error. *)
Definition Error (e : error) : string :=
  match e with
  | SysError _ text => text
  | ErrorString text => text
  end.

(** [main], from the call of [GetPasswd] on. *)
Definition main (w : World) (fl : Flags) : Outcome :=
  let p := OrapassParser.mkParser (flagH fl) (flagP fl) (flagD fl) (flagU fl)
                                  "" (flagF fl) [] (flagDebug fl) in
  match snd (OrapassParser.GetPasswd w p) with
  | (_, Some err) =>
      if negb (flagQ fl) then mkOutcome "" (Error err ++ nl) 1
      else mkOutcome "" "" 1
  | (p2, None) => mkOutcome (OrapassParser.Password p2 ++ nl) "" 0
  end.

End OrapassCmd.

(** The five fields of a record of either generation. *)
Definition fieldsOfParser (r : OrapassParser.Parser)
  : string * string * string * string * string :=
  (OrapassParser.Host r, OrapassParser.Port r, OrapassParser.DbName r,
   OrapassParser.Username r, OrapassParser.Password r).

Definition fieldsOfPwRec (r : OrapassPwRec.PwRec)
  : string * string * string * string * string :=
  (OrapassPwRec.Host r, OrapassPwRec.Port r, OrapassPwRec.DbName r,
   OrapassPwRec.Username r, OrapassPwRec.Password r).

(** A file with a comment, then a line of 64 KiB, then two entries that
    both answer the query for scott on localhost:1521/emp. *)
Definition longLineFile : string :=
  terminated nl ["# orapass"] ++ longLine
  ++ (nl ++ terminated nl ["localhost:1521:emp:scott:tiger";
                           "localhost:1521:*:scott:lion"]).

(** A file whose second entry is over-long and whose first and third
    entries both answer the query for scott on localhost:1521/emp. *)
Definition longTailFile : string :=
  terminated nl ["# orapass"; "otherhost:1521:emp:scott:bear"]
  ++ "localhost:1521:emp:scott:tiger"
  ++ (nl ++ longLine ++ nl ++ "localhost:1521:*:scott:lion" ++ nl).

(** ** Facts about the string functions *)

Lemma cut_Some (sep : ascii) (s before rest : string) :
  cut sep s = Some (before, rest) ->
  s = before ++ String sep rest /\ freeOf sep before = true.
Proof.
  revert before rest.
  induction s as [|c s IH]; intros before rest Hcut; simpl in Hcut.
  - discriminate.
  - destruct (Ascii.eqb c sep) eqn:Hc.
    + apply Ascii.eqb_eq in Hc. inversion Hcut; subst. now split.
    + destruct (cut sep s) as [[b r]|]; [|discriminate].
      inversion Hcut; subst; clear Hcut.
      destruct (IH b rest eq_refl) as [-> Hfree].
      simpl. now rewrite Hc, Hfree.
Qed.

Lemma cut_None (sep : ascii) (s : string) :
  cut sep s = None <-> freeOf sep s = true.
Proof.
  induction s as [|c s IH]; simpl.
  - tauto.
  - destruct (Ascii.eqb c sep); simpl.
    + split; discriminate.
    + destruct (cut sep s) as [[b r]|].
      * split; [discriminate|]. intros H. apply IH in H. discriminate.
      * split; [intros _; now apply IH | reflexivity].
Qed.

Lemma cut_app (sep : ascii) (before rest : string) :
  freeOf sep before = true ->
  cut sep (before ++ String sep rest) = Some (before, rest).
Proof.
  induction before as [|c b IH]; simpl; intros Hfree.
  - now rewrite Ascii.eqb_refl.
  - apply andb_true_iff in Hfree as [Hc Hb].
    apply negb_true_iff in Hc. now rewrite Hc, (IH Hb).
Qed.

Lemma SplitN_length (s : string) (sep : ascii) (n : nat) :
  length (SplitN s sep n) <= n.
Proof.
  revert s. induction n as [|n IH]; intros s; simpl; [lia|].
  destruct n as [|n]; simpl; [lia|].
  destruct (cut sep s) as [[b r]|]; simpl; [|lia].
  specialize (IH r). simpl in IH. lia.
Qed.

(** A line splits into five fields exactly when it is four separator-free
    fields, each followed by the separator, and then a remainder. *)
Lemma SplitN_five (line : string) (sep : ascii) (t0 t1 t2 t3 t4 : string) :
  SplitN line sep 5 = [t0; t1; t2; t3; t4] <->
  line = t0 ++ String sep (t1 ++ String sep (t2 ++ String sep (t3 ++ String sep t4)))
  /\ freeOf sep t0 = true /\ freeOf sep t1 = true
  /\ freeOf sep t2 = true /\ freeOf sep t3 = true.
Proof.
  split.
  - cbn [SplitN]. intros H.
    destruct (cut sep line) as [[a0 r0]|] eqn:H0; [|discriminate].
    destruct (cut sep r0) as [[a1 r1]|] eqn:H1; [|discriminate].
    destruct (cut sep r1) as [[a2 r2]|] eqn:H2; [|discriminate].
    destruct (cut sep r2) as [[a3 r3]|] eqn:H3; [|discriminate].
    inversion H; subst; clear H.
    apply cut_Some in H0 as [-> ?], H1 as [-> ?], H2 as [-> ?], H3 as [-> ?].
    repeat split; assumption.
  - intros (-> & F0 & F1 & F2 & F3). cbn [SplitN].
    now rewrite (cut_app _ _ _ F0), (cut_app _ _ _ F1),
                (cut_app _ _ _ F2), (cut_app _ _ _ F3).
Qed.

(** A line with no separator at all splits into one field. *)
Lemma SplitN_free (line : string) (sep : ascii) (n : nat) :
  freeOf sep line = true -> SplitN line sep (S n) = [line].
Proof.
  intros H. apply cut_None in H. simpl. destruct n; [reflexivity|].
  now rewrite H.
Qed.

Lemma ToUpper_empty (s : string) : ToUpper s = "" -> s = "".
Proof. destruct s; [reflexivity | discriminate]. Qed.

(** [fmtOctal] writes the octal numeral of its argument. *)
Lemma octDigits_read (fuel : nat) : forall (n : N) (acc : string),
  (n < 8 ^ N.of_nat fuel)%N ->
  readOctal 0 (octDigits fuel n acc) = readOctal n acc.
Proof.
  induction fuel as [|fuel IH]; intros n acc Hn.
  - change (8 ^ N.of_nat 0)%N with 1%N in Hn.
    assert (n = 0%N) by lia. subst. reflexivity.
  - cbn [octDigits].
    assert (Hd : (N_of_ascii (ascii_of_N (48 + n mod 8)) - 48 = n mod 8)%N).
    { pose proof (N.mod_upper_bound n 8 ltac:(discriminate)) as Hm.
      revert Hm. generalize (n mod 8)%N. intros m Hm.
      rewrite N_ascii_embedding; lia. }
    pose proof (N.div_mod n 8 ltac:(discriminate)) as Hdm.
    revert Hd Hdm. generalize (n mod 8)%N. intros m Hd Hdm.
    destruct (n / 8 =? 0)%N eqn:Hq.
    + apply N.eqb_eq in Hq. cbn [readOctal]. rewrite Hd. f_equal. lia.
    + rewrite IH.
      * cbn [readOctal]. rewrite Hd. f_equal. lia.
      * rewrite Nat2N.inj_succ, N.pow_succ_r' in Hn.
        apply N.Div0.div_lt_upper_bound. lia.
Qed.

Lemma fmtOctal_read (n : N) : readOctal 0 (fmtOctal n) = n.
Proof.
  unfold fmtOctal. rewrite octDigits_read; [reflexivity|].
  rewrite Nat2N.inj_succ, N2Nat.id, N.pow_succ_r'.
  pose proof (N.size_gt n) as Hs.
  assert (2 ^ N.size n <= 8 ^ N.size n)%N
    by (apply N.pow_le_mono_l; lia).
  lia.
Qed.

Example fmtOctal_modes :
  fmtOctal 384 = "600" /\ fmtOctal 420 = "644" /\ fmtOctal 0 = "0".
Proof. repeat split. Qed.

(** ** The field match *)

Lemma Parser_chkForMatch_spec (callingParm fileParm : string) :
  OrapassParser.chkForMatch callingParm fileParm = true <->
  ToUpper callingParm = ToUpper fileParm
  \/ (fileParm = "*" /\ callingParm <> "").
Proof.
  unfold OrapassParser.chkForMatch.
  destruct (ToUpper callingParm =? ToUpper fileParm) eqn:Hu.
  - apply String.eqb_eq in Hu. tauto.
  - apply String.eqb_neq in Hu.
    destruct (fileParm =? "*") eqn:Hs; simpl.
    + apply String.eqb_eq in Hs.
      destruct (callingParm =? "") eqn:He; simpl.
      * apply String.eqb_eq in He. split; [discriminate|].
        intros [H|[_ H]]; contradiction.
      * apply String.eqb_neq in He. tauto.
    + apply String.eqb_neq in Hs. split; [discriminate|].
      intros [H|[H _]]; contradiction.
Qed.

Lemma PwRec_chkForMatch_spec (callingParm fileParm : string) :
  OrapassPwRec.chkForMatch callingParm fileParm = true <->
  ToUpper callingParm = ToUpper fileParm \/ fileParm = "*".
Proof.
  unfold OrapassPwRec.chkForMatch.
  destruct (ToUpper callingParm =? ToUpper fileParm) eqn:Hu.
  - apply String.eqb_eq in Hu. tauto.
  - apply String.eqb_neq in Hu.
    destruct (fileParm =? "*") eqn:Hs.
    + apply String.eqb_eq in Hs. tauto.
    + apply String.eqb_neq in Hs. split; [discriminate|].
      intros [H|H]; contradiction.
Qed.

(** C1, as stated, fails on the [Parser] generation: an empty calling
    parameter is not matched by the file field [*], although the claim's
    right-hand side holds there. *)
Lemma chkForMatch_star_rejects_empty_query :
  ~ (OrapassParser.chkForMatch "" "*" = true <->
     (ToUpper "" = ToUpper "*" \/ "*" = "*")).
Proof.
  intros [_ H]. specialize (H (or_intror eq_refl)). discriminate H.
Qed.

(** C1 (amended): in both generations the field match is true exactly when
    the two fields are equal once upper-cased or the file field is the
    wildcard; in the [Parser] generation the wildcard matches only a
    non-empty calling parameter, in the [PwRec] generation it matches every
    calling parameter, the empty one included. *)
Theorem chkForMatch_characterised (callingParm fileParm : string) :
  (OrapassParser.chkForMatch callingParm fileParm = true <->
     ToUpper callingParm = ToUpper fileParm
     \/ (fileParm = "*" /\ callingParm <> ""))
  /\ (OrapassPwRec.chkForMatch callingParm fileParm = true <->
        ToUpper callingParm = ToUpper fileParm \/ fileParm = "*")
  /\ OrapassPwRec.chkForMatch "" "*" = true
  /\ OrapassParser.chkForMatch "" "*" = false.
Proof.
  split; [apply Parser_chkForMatch_spec|].
  split; [apply PwRec_chkForMatch_spec|].
  split; reflexivity.
Qed.

Example chkForMatch_case_insensitive :
  OrapassParser.chkForMatch "localhost" "LOCALHOST" = true
  /\ OrapassParser.chkForMatch "nosuchdb" "*" = true
  /\ OrapassParser.chkForMatch "walter" "scott" = false.
Proof. repeat split. Qed.

(** ** The scan of the [Parser] generation *)

Module ParserFacts.
Import OrapassParser.

(** The record [searchFile] composes from the five tokens of a line. *)
Lemma tryLine_Some (p : Parser) (line : string) (r : Parser) :
  tryLine p line = Some r <->
  commentRe line = false
  /\ exists t0 t1 t2 t3 t4,
      SplitN line ":" 5 = [t0; t1; t2; t3; t4]
      /\ chkForMatch (Host p) t0 = true
      /\ chkForMatch (Port p) t1 = true
      /\ chkForMatch (DbName p) t2 = true
      /\ chkForMatch (Username p) t3 = true
      /\ r = mkParser (pickParm (Host p) t0) (pickParm (Port p) t1)
                      (pickParm (DbName p) t2) t3 t4 "" [] false.
Proof.
  unfold tryLine. split.
  - destruct (commentRe line); [discriminate|].
    pose proof (SplitN_length line ":" 5) as Hlen.
    destruct (SplitN line ":" 5) as [|t0 [|t1 [|t2 [|t3 [|t4 rest]]]]];
      try discriminate.
    destruct rest; [|simpl in Hlen; lia].
    destruct (chkForMatch (Host p) t0) eqn:H0; [|discriminate].
    destruct (chkForMatch (Port p) t1) eqn:H1; [|discriminate].
    destruct (chkForMatch (DbName p) t2) eqn:H2; [|discriminate].
    destruct (chkForMatch (Username p) t3) eqn:H3; [|discriminate].
    simpl. intros H. inversion H; subst; clear H.
    split; [reflexivity|]. exists t0, t1, t2, t3, t4.
    repeat (split; [assumption || reflexivity|]). reflexivity.
  - intros (-> & t0 & t1 & t2 & t3 & t4 & -> & -> & -> & -> & -> & ->).
    reflexivity.
Qed.

(** A line with fewer than five fields lets the loop go on. *)
Lemma tryLine_few_fields (p : Parser) (line : string) :
  length (SplitN line ":" 5) < 5 -> tryLine p line = None.
Proof.
  unfold tryLine. intros Hlen.
  destruct (commentRe line); [reflexivity|].
  destruct (SplitN line ":" 5) as [|t0 [|t1 [|t2 [|t3 [|t4 rest]]]]];
    try reflexivity.
  simpl in Hlen. lia.
Qed.

Lemma tryLine_comment (p : Parser) (line : string) :
  commentRe line = true -> tryLine p line = None.
Proof. unfold tryLine. now intros ->. Qed.

(** The loop stops at the first line on which its body returns. *)
Lemma scanLoop_first (p : Parser) (pre post : list string)
      (line : string) (r : Parser) :
  (forall x, In x pre -> tryLine p x = None) ->
  tryLine p line = Some r ->
  scanLoop p (pre ++ line :: post) = Some r.
Proof.
  induction pre as [|x pre IH]; simpl; intros Hpre Hline.
  - now rewrite Hline.
  - rewrite (Hpre x (or_introl eq_refl)). apply IH; auto.
Qed.

Lemma scanLoop_none (p : Parser) (lines : list string) :
  (forall x, In x lines -> tryLine p x = None) -> scanLoop p lines = None.
Proof.
  induction lines as [|x lines IH]; simpl; intros H; [reflexivity|].
  rewrite (H x (or_introl eq_refl)). apply IH; auto.
Qed.

(** Whatever the loop returns was returned by its body on some line. *)
Lemma scanLoop_Some (p : Parser) (lines : list string) (r : Parser) :
  scanLoop p lines = Some r ->
  exists line, In line lines /\ tryLine p line = Some r.
Proof.
  induction lines as [|x lines IH]; simpl; [discriminate|].
  destruct (tryLine p x) eqn:Hx.
  - intros H; inversion H; subst. exists x. auto.
  - intros H. destruct (IH H) as (l & Hin & Hl). exists l. auto.
Qed.

(** The two exits of [searchFile]: a record with no error, or the zero
    record with an error. *)
Lemma searchFile_found (w : World) (p : Parser) (file : FileData) (r : Parser) :
  Open w (OrapassFile p) = Ok file ->
  scanLoop p (fst (scanLines file)) = Some r ->
  searchFile w p = (r, None).
Proof.
  unfold searchFile. intros -> H.
  destruct (scanLines file) as [lines e]. simpl in H. now rewrite H.
Qed.

Lemma searchFile_result (w : World) (p r : Parser) (e : option error) :
  searchFile w p = (r, e) ->
  match e with
  | Some _ => r = zero
  | None => exists file line,
      Open w (OrapassFile p) = Ok file
      /\ In line (fst (scanLines file)) /\ tryLine p line = Some r
  end.
Proof.
  unfold searchFile.
  destruct (Open w (OrapassFile p)) as [file|e0] eqn:Hopen.
  - destruct (scanLines file) as [lines se] eqn:Hscan.
    destruct (scanLoop p lines) as [found|] eqn:Hloop.
    + intros H; inversion H; subst.
      apply scanLoop_Some in Hloop as (line & Hin & Hl).
      exists file, line. rewrite Hscan. auto.
    + destruct se; intros H; inversion H; reflexivity.
  - intros H; inversion H; reflexivity.
Qed.

(** ** File discovery of the [Parser] generation *)

Lemma sameQuery_refl (p : Parser) : sameQuery p p.
Proof. repeat split. Qed.

Lemma sameQuery_trans (p q r : Parser) :
  sameQuery p q -> sameQuery q r -> sameQuery p r.
Proof.
  unfold sameQuery. intros (A & B & C & D) (A' & B' & C' & D').
  repeat split; congruence.
Qed.

Lemma appendFileList_sameQuery (f : string) (p : Parser) :
  sameQuery p (appendFileList f p) /\ OrapassFile (appendFileList f p) = OrapassFile p.
Proof.
  unfold appendFileList. destruct (negb (f =? "")); repeat split.
Qed.

Lemma addCandidates_keeps (w : World) (p : Parser) :
  sameQuery p (addCandidates w p)
  /\ OrapassFile (addCandidates w p) = OrapassFile p.
Proof.
  assert (step : forall f q,
             sameQuery p q /\ OrapassFile q = OrapassFile p ->
             sameQuery p (appendFileList f q)
             /\ OrapassFile (appendFileList f q) = OrapassFile p).
  { intros f q [Hq Hf]. destruct (appendFileList_sameQuery f q) as [Hs Ho].
    split; [eapply sameQuery_trans; eassumption | congruence]. }
  unfold addCandidates.
  destruct (GOOS w =? "windows");
    repeat apply step; split; (apply sameQuery_refl || reflexivity).
Qed.

Lemma findLoop_keeps (w : World) (fs : list string) (p q : Parser)
      (e : option error) :
  findLoop w fs p = (q, e) -> sameQuery p q.
Proof.
  revert p q e. induction fs as [|f fs IH]; simpl; intros p q e H.
  - inversion H; subst. apply sameQuery_refl.
  - destruct (fileExists w f) as [[|] [err|]];
      try (inversion H; subst; repeat split; fail).
    eauto.
Qed.

Lemma findPasswordFile_keeps (w : World) (p q : Parser) (e : option error) :
  findPasswordFile w p = (q, e) -> sameQuery p q.
Proof.
  unfold findPasswordFile. intros H. apply findLoop_keeps in H.
  eapply sameQuery_trans; [apply addCandidates_keeps | exact H].
Qed.

(** When no candidate is a usable file the loop ends without an error and
    the receiver keeps its [OrapassFile]. *)
Lemma findLoop_exhausted (w : World) (fs : list string) (p : Parser) :
  Forall (fun f => fileExists w f = (false, None)) fs ->
  findLoop w fs p = (p, None).
Proof.
  induction 1 as [|f fs Hf _ IH]; simpl; [reflexivity|]. now rewrite Hf.
Qed.

(** ** [GetPasswd] of the [Parser] generation *)

(** On a platform other than Windows [GetPasswd] is the sequence: defaults,
    file discovery, permission check, scan. *)
Lemma GetPasswd_unix (w : World) (p : Parser) :
  GOOS w <> "windows" ->
  snd (GetPasswd w p) =
  match findPasswordFile w (applyDefaults w p) with
  | (_, Some err) => (zero, Some err)
  | (p1, None) =>
      match Stat w (OrapassFile p1) with
      | Err e => (zero, Some e)
      | Ok fi =>
          if (Perm fi =? 384)%N then searchFile w p1
          else (zero, Some (errBadPerms (Perm fi)))
      end
  end.
Proof.
  intros Hos. apply String.eqb_neq in Hos.
  unfold GetPasswd, checkFilePerms, permbits_Stat. rewrite Hos. simpl.
  destruct (findPasswordFile w (applyDefaults w p)) as [p1 [err|]];
    [reflexivity|].
  destruct (Stat w (OrapassFile p1)) as [fi|e]; [|reflexivity].
  destruct (Perm fi =? 384)%N; reflexivity.
Qed.

(** When discovery and permission check pass, [GetPasswd] returns what
    [searchFile] returns on the receiver that discovery left. *)
Lemma GetPasswd_scan (w : World) (p p1 : Parser) :
  findPasswordFile w (applyDefaults w p) = (p1, None) ->
  GOOS w = "windows"
  \/ (exists fi, Stat w (OrapassFile p1) = Ok fi /\ Perm fi = 384%N) ->
  GetPasswd w p = (p1, searchFile w p1).
Proof.
  intros Hfind Hperm. unfold GetPasswd. rewrite Hfind.
  destruct (GOOS w =? "windows") eqn:Hos; simpl; [reflexivity|].
  destruct Hperm as [Hw|(fi & Hst & Hp)].
  - apply String.eqb_neq in Hos. contradiction.
  - unfold checkFilePerms, permbits_Stat. rewrite Hst, Hp. reflexivity.
Qed.

(** A success of [GetPasswd] is a success of [searchFile] after a discovery
    without error. *)
Lemma GetPasswd_success (w : World) (p r : Parser) :
  snd (GetPasswd w p) = (r, None) ->
  exists p1, findPasswordFile w (applyDefaults w p) = (p1, None)
             /\ searchFile w p1 = (r, None).
Proof.
  unfold GetPasswd.
  destruct (findPasswordFile w (applyDefaults w p)) as [p1 [err|]];
    simpl; [discriminate|].
  destruct (negb (GOOS w =? "windows")); simpl.
  - destruct (checkFilePerms w p1) as [b [err|]]; simpl; [discriminate|].
    intros H. exists p1. auto.
  - intros H. exists p1. auto.
Qed.

Lemma GetPasswd_failure (w : World) (p r : Parser) (e : error) :
  snd (GetPasswd w p) = (r, Some e) -> r = zero.
Proof.
  unfold GetPasswd.
  destruct (findPasswordFile w (applyDefaults w p)) as [p1 [err|]]; simpl.
  - intros H; inversion H; reflexivity.
  - destruct (negb (GOOS w =? "windows")); simpl.
    + destruct (checkFilePerms w p1) as [b [err|]]; simpl.
      * intros H; inversion H; reflexivity.
      * intros H. apply (searchFile_result w p1 r (Some e) H).
    + intros H. apply (searchFile_result w p1 r (Some e) H).
Qed.

End ParserFacts.

(** ** Properties of the resolver ([Parser] generation) *)

Module ParserProperties.
Import OrapassParser ParserFacts.

(** C9: whenever [GetPasswd] returns an error, the record it returns is the
    zero record: host, port, database, username and password are all the
    empty string. *)
Theorem GetPasswd_error_returns_zero_record
        (w : World) (p r : Parser) (e : error) :
  snd (GetPasswd w p) = (r, Some e) ->
  r = zero
  /\ Host r = "" /\ Port r = "" /\ DbName r = "" /\ Username r = ""
  /\ Password r = "".
Proof.
  intros H. apply GetPasswd_failure in H. subst r. repeat split.
Qed.

Lemma GetPasswd_error_returns_zero_record_witness :
  snd (GetPasswd (homeWorld 384 testFile)
                 (query "localhost" "1521" "emp" "walter"))
  = (zero, Some errNoEntry)
  /\ (zero = zero
      /\ Host zero = "" /\ Port zero = "" /\ DbName zero = ""
      /\ Username zero = "" /\ Password zero = "").
Proof.
  split; [reflexivity|].
  apply (GetPasswd_error_returns_zero_record
           (homeWorld 384 testFile)
           (query "localhost" "1521" "emp" "walter") zero errNoEntry).
  reflexivity.
Defined.

(** C6: on a platform other than Windows, when the file that discovery
    settled on has a permission mode other than 0600, [GetPasswd] fails
    with the permission error, whose text gives the expected mode 600 and
    the actual mode as its octal numeral; the content of the file plays no
    part (the file is not even opened). *)
Theorem bad_permissions_rejected (w : World) (p p1 : Parser) (fi : FileInfo) :
  GOOS w <> "windows" ->
  findPasswordFile w (applyDefaults w p) = (p1, None) ->
  Stat w (OrapassFile p1) = Ok fi ->
  Perm fi <> 384%N ->
  snd (GetPasswd w p)
  = (zero,
     Some (ErrorString
             ("Permissions on file are incorrect. Should be 600, got "
              ++ fmtOctal (Perm fi))))
  /\ readOctal 0 "600" = 384%N
  /\ readOctal 0 (fmtOctal (Perm fi)) = Perm fi.
Proof.
  intros Hos Hfind Hstat Hperm. split; [|split].
  - rewrite (GetPasswd_unix w p Hos), Hfind, Hstat.
    apply N.eqb_neq in Hperm. now rewrite Hperm.
  - reflexivity.
  - apply fmtOctal_read.
Qed.

(** Mode 0644 on a file that holds a matching entry. *)
Lemma bad_permissions_rejected_witness :
  snd (GetPasswd (homeWorld 420 testFile)
                 (query "localhost" "1521" "emp" "scott"))
  = (zero,
     Some (ErrorString
             "Permissions on file are incorrect. Should be 600, got 644"))
  /\ readOctal 0 "600" = 384%N
  /\ readOctal 0 "644" = 420%N.
Proof.
  apply (bad_permissions_rejected
           (homeWorld 420 testFile)
           (query "localhost" "1521" "emp" "scott")
           (mkParser "localhost" "1521" "emp" "scott" "" "/home/scott/.orapass"
                     ["/home/scott/.orapass"; "/home/scott/orapass"] false)
           (mkFileInfo true 420)).
  - discriminate.
  - reflexivity.
  - reflexivity.
  - discriminate.
Defined.

(** C2, as stated, fails: on a Linux system where no candidate exists, the
    permission check still runs and [GetPasswd] ends with the error of its
    [stat], not with the not-found error. *)
Lemma no_file_ends_with_stat_error :
  Forall (fun f => fileExists emptyWorld f = (false, None))
         (files (addCandidates emptyWorld
                   (applyDefaults emptyWorld
                      (query "localhost" "1521" "emp" "scott"))))
  /\ snd (GetPasswd emptyWorld (query "localhost" "1521" "emp" "scott"))
     = (zero, Some (SysError true "stat : no such file or directory"))
  /\ SysError true "stat : no such file or directory" <> errNoEntry.
Proof.
  split; [repeat constructor|]. split; [reflexivity | discriminate].
Qed.

(** C2 (amended): when the candidate search exhausts all candidates without
    locating a usable file, [findPasswordFile] reports no error and leaves
    the receiver's file path as the caller gave it; on a platform other
    than Windows the permission check is then run on that path: when its
    [stat] fails, [GetPasswd] ends with that error, and when the path has a
    mode other than 0600 it ends with the permission error. *)
Theorem no_file_found_still_checked (w : World) (p : Parser) :
  GOOS w <> "windows" ->
  Forall (fun f => fileExists w f = (false, None))
         (files (addCandidates w (applyDefaults w p))) ->
  snd (findPasswordFile w (applyDefaults w p)) = None
  /\ OrapassFile (fst (findPasswordFile w (applyDefaults w p))) = OrapassFile p
  /\ (forall e, Stat w (OrapassFile p) = Err e ->
                snd (GetPasswd w p) = (zero, Some e))
  /\ (forall fi, Stat w (OrapassFile p) = Ok fi -> Perm fi <> 384%N ->
                 snd (GetPasswd w p) = (zero, Some (errBadPerms (Perm fi)))).
Proof.
  intros Hos Hnone.
  assert (Hfind : findPasswordFile w (applyDefaults w p)
                  = (addCandidates w (applyDefaults w p), None)).
  { unfold findPasswordFile. now apply findLoop_exhausted. }
  assert (Hfile : OrapassFile (addCandidates w (applyDefaults w p))
                  = OrapassFile p).
  { now rewrite (proj2 (addCandidates_keeps w (applyDefaults w p))). }
  rewrite (GetPasswd_unix w p Hos), Hfind, Hfile. simpl.
  repeat split; [assumption| |].
  - intros e ->. reflexivity.
  - intros fi -> Hperm. apply N.eqb_neq in Hperm. now rewrite Hperm.
Qed.

Lemma no_file_found_still_checked_witness :
  snd (GetPasswd emptyWorld (query "localhost" "1521" "emp" "scott"))
  = (zero, Some (errENOENT "")).
Proof.
  refine (proj1 (proj2 (proj2
           (no_file_found_still_checked
              emptyWorld (query "localhost" "1521" "emp" "scott") _ _)))
           (errENOENT "") _).
  - discriminate.
  - repeat constructor.
  - reflexivity.
Defined.

(** [pickParm] returns the wildcard only when the calling parameter is one. *)
Lemma pickParm_spec (callingParm fileParm : string) :
  pickParm callingParm fileParm
  = if (fileParm =? "*") || (fileParm =? "") then callingParm else fileParm.
Proof.
  unfold pickParm.
  destruct (fileParm =? "*"), (fileParm =? ""); reflexivity.
Qed.

Lemma pickParm_star (callingParm fileParm : string) :
  pickParm callingParm fileParm = "*" -> callingParm = "*".
Proof.
  rewrite pickParm_spec.
  destruct (fileParm =? "*") eqn:Hs; simpl; [auto|].
  destruct (fileParm =? ""); [auto|].
  intros ->. discriminate.
Qed.

(** The explicit path names a directory and nothing else exists: discovery
    finds no usable file, and the permission check refuses the directory. *)
Example directory_as_orapass_file :
  snd (GetPasswd emptyWorld
                 (mkParser "localhost" "1521" "emp" "scott" "" "/tmp/dir"
                           [] false))
  = (zero,
     Some (ErrorString
             "Permissions on file are incorrect. Should be 600, got 755")).
Proof. reflexivity. Qed.

(** C3, as stated, fails: the password is the fifth field of the line as it
    is written, so a line whose password is [*] resolves to that password. *)
Lemma password_may_be_star :
  snd (GetPasswd (homeWorld 384 ("localhost:1521:emp:scott:*" ++ nl))
                 (query "localhost" "1521" "emp" "scott"))
  = (mkParser "localhost" "1521" "emp" "scott" "*" "" [] false, None).
Proof. reflexivity. Qed.

(** C3 (amended): in every successful resolution the returned host, port
    and database are [*] only when the value the caller searched with (the
    query after default substitution) is itself [*]: a wildcard in those
    positions of the matching line is replaced by the caller's value. *)
Theorem wildcard_resolved_to_caller_value (w : World) (p r : Parser) :
  snd (GetPasswd w p) = (r, None) ->
  (Host r = "*" -> Host (applyDefaults w p) = "*")
  /\ (Port r = "*" -> Port (applyDefaults w p) = "*")
  /\ (DbName r = "*" -> DbName (applyDefaults w p) = "*").
Proof.
  intros H. apply GetPasswd_success in H as (p1 & Hfind & Hsearch).
  apply findPasswordFile_keeps in Hfind as (Hh & Hp & Hd & _).
  apply (searchFile_result w p1 r None) in Hsearch
    as (file & line & _ & _ & Hline).
  apply tryLine_Some in Hline
    as (_ & t0 & t1 & t2 & t3 & t4 & _ & _ & _ & _ & _ & ->).
  rewrite <- Hh, <- Hp, <- Hd. simpl.
  repeat split; apply pickParm_star.
Qed.

Lemma wildcard_resolved_to_caller_value_witness :
  snd (GetPasswd (homeWorld 384 ("*:1521:*:scott:lion" ++ nl))
                 (query "*" "1521" "nosuchdb" "scott"))
  = (mkParser "*" "1521" "nosuchdb" "scott" "lion" "" [] false, None)
  /\ Host (applyDefaults
             (homeWorld 384 ("*:1521:*:scott:lion" ++ nl))
             (query "*" "1521" "nosuchdb" "scott")) = "*".
Proof.
  split; [reflexivity|].
  exact (proj1 (wildcard_resolved_to_caller_value
                  (homeWorld 384 ("*:1521:*:scott:lion" ++ nl))
                  (query "*" "1521" "nosuchdb" "scott")
                  (mkParser "*" "1521" "nosuchdb" "scott" "lion" "" [] false)
                  eq_refl)
               eq_refl).
Defined.

(** First match among the tokens of the scanner.  When the scanner
    delivers the lines [pre ++ line :: post], no line of [pre] is selected,
    and [line] is not a comment, has five fields and passes the four field
    matches, then [searchFile] returns the record composed from [line]; the
    lines of [post] play no part, whether they match or not. *)
Theorem first_match_wins
        (w : World) (p : Parser) (file : FileData)
        (pre post : list string) (line t0 t1 t2 t3 t4 : string) :
  Open w (OrapassFile p) = Ok file ->
  fst (scanLines file) = (pre ++ line :: post)%list ->
  (forall x, In x pre -> tryLine p x = None) ->
  commentRe line = false ->
  SplitN line ":" 5 = [t0; t1; t2; t3; t4] ->
  chkForMatch (Host p) t0 = true ->
  chkForMatch (Port p) t1 = true ->
  chkForMatch (DbName p) t2 = true ->
  chkForMatch (Username p) t3 = true ->
  searchFile w p
  = (mkParser (pickParm (Host p) t0) (pickParm (Port p) t1)
              (pickParm (DbName p) t2) t3 t4 "" [] false, None).
Proof.
  intros Hopen Hlines Hpre Hc Hsplit H0 H1 H2 H3.
  apply (searchFile_found w p file); [assumption|].
  rewrite Hlines. apply scanLoop_first; [assumption|].
  apply tryLine_Some. split; [assumption|].
  exists t0, t1, t2, t3, t4. repeat (split; [assumption|]). reflexivity.
Qed.

(** The test file: the query for database [emp] on port 1521 is answered by
    the first line although the second line matches it too. *)
Lemma first_match_wins_witness :
  searchFile (homeWorld 384 testFile)
             (mkParser "localhost" "1521" "emp" "scott" ""
                       "/home/scott/.orapass" [] false)
  = (mkParser "localhost" "1521" "emp" "scott" "tiger" "" [] false, None).
Proof.
  apply (first_match_wins
           (homeWorld 384 testFile) _ (mkFileData testFile None)
           []
           ["localhost:1521:*:scott:lion"; "localhost:1522:emp:scott:bear";
            "localhost:*:emp:scott:cat"; "otherhost:*:emp:scott:elephant";
            "otherhost:1521:newemp:eve:seal"; "*:1521:oldemp:alice:wolf"]
           "localhost:1521:emp:scott:tiger"
           "localhost" "1521" "emp" "scott" "tiger");
    try reflexivity.
  intros x [].
Defined.

(** The second line is selected as soon as the first one does not match. *)
Example wildcard_line_selected :
  snd (GetPasswd (homeWorld 384 testFile)
                 (query "localhost" "1521" "nosuchdb" "scott"))
  = (mkParser "localhost" "1521" "nosuchdb" "scott" "lion" "" [] false, None).
Proof. reflexivity. Qed.



Example password_keeps_colons :
  SplitN "host:1521:db:user:pa:ss:word" ":" 5
  = ["host"; "1521"; "db"; "user"; "pa:ss:word"]
  /\ snd (GetPasswd (homeWorld 384 colonFile) (query "host" "1521" "db" "user"))
     = (mkParser "host" "1521" "db" "user" "pa:ss:word" "" [] false, None).
Proof. split; reflexivity. Qed.

(** [coalesce] on the lists [GetPasswd] builds. *)
Lemma coalesce_three (a b c : string) :
  coalesce [a; b; c]
  = if a =? "" then if b =? "" then c else b else a.
Proof.
  simpl. destruct (a =? ""); simpl; [|reflexivity].
  destruct (b =? ""); simpl; [|reflexivity].
  destruct (c =? "") eqn:Hc; simpl; [|reflexivity].
  apply String.eqb_eq in Hc. now subst.
Qed.

Lemma coalesce_two (a b : string) :
  coalesce [a; b] = if a =? "" then b else a.
Proof.
  simpl. destruct (a =? ""); simpl; [|reflexivity].
  destruct (b =? "") eqn:Hb; simpl; [|reflexivity].
  apply String.eqb_eq in Hb. now subst.
Qed.

Lemma coalesce_first_nonempty (s : list string) (v : string) :
  coalesce s = v ->
  (v <> "" /\ exists before after,
      s = (before ++ v :: after)%list /\ Forall (fun x => x = "") before)
  \/ (v = "" /\ Forall (fun x => x = "") s).
Proof.
  revert v. induction s as [|x s IH]; simpl; intros v Hv.
  - right. subst. split; constructor.
  - destruct (x =? "") eqn:Hx; simpl in Hv.
    + apply String.eqb_eq in Hx. subst x.
      destruct (IH v Hv) as [(Hne & b & a & -> & Hb)|(He & Hall)].
      * left. split; [assumption|]. exists ("" :: b), a. split; [reflexivity|].
        constructor; auto.
      * right. split; [assumption|]. constructor; auto.
    + apply String.eqb_neq in Hx. subst v. left. split; [assumption|].
      exists [], s. split; [reflexivity | constructor].
Qed.

Lemma coalesce_again (a : string) (rest : list string) :
  coalesce (coalesce (a :: rest) :: rest) = coalesce (a :: rest).
Proof.
  simpl. destruct (a =? "") eqn:Ha; simpl.
  - destruct (coalesce rest =? ""); reflexivity.
  - now rewrite Ha.
Qed.

Lemma applyDefaults_fields (w : World) (p : Parser) :
  applyDefaults w p
  = mkParser (coalesce [Host p; Getenv w "ORACLE_HOST"; "localhost"])
             (coalesce [Port p; Getenv w "ORACLE_PORT"; "1521"])
             (coalesce [DbName p; Getenv w "ORACLE_SID"])
             (coalesce [Username p; Getenv w "ORACLE_USER";
                        match Current w with Ok u => u | Err _ => "" end])
             (Password p) (OrapassFile p) (files p) (Debug p).
Proof. reflexivity. Qed.

(** Substituting the defaults twice is substituting them once. *)
Lemma applyDefaults_idempotent (w : World) (p : Parser) :
  applyDefaults w (applyDefaults w p) = applyDefaults w p.
Proof.
  rewrite (applyDefaults_fields w (applyDefaults w p)).
  rewrite (applyDefaults_fields w p).
  cbn [Host Port DbName Username Password OrapassFile files Debug].
  rewrite !coalesce_again. reflexivity.
Qed.

(** C7: default substitution.  The query [GetPasswd] searches with (and
    leaves in its receiver) has, for host, port, database and username, the
    caller's value when it is not empty, and otherwise the first non-empty
    value among the environment variable (ORACLE_HOST, ORACLE_PORT,
    ORACLE_SID, ORACLE_USER) and the built-in default ([localhost], [1521],
    the name of the current user); the database has no built-in default and
    stays empty when ORACLE_SID is empty.  The substitution comes before
    any file search: resolving a query is resolving the query with the
    substituted values. *)
Theorem defaults_substituted (w : World) (p : Parser) :
  Host (fst (GetPasswd w p))
  = (if Host p =? "" then
       if Getenv w "ORACLE_HOST" =? "" then "localhost"
       else Getenv w "ORACLE_HOST"
     else Host p)
  /\ Port (fst (GetPasswd w p))
     = (if Port p =? "" then
          if Getenv w "ORACLE_PORT" =? "" then "1521"
          else Getenv w "ORACLE_PORT"
        else Port p)
  /\ DbName (fst (GetPasswd w p))
     = (if DbName p =? "" then Getenv w "ORACLE_SID" else DbName p)
  /\ Username (fst (GetPasswd w p))
     = (if Username p =? "" then
          if Getenv w "ORACLE_USER" =? "" then
            match Current w with Ok u => u | Err _ => "" end
          else Getenv w "ORACLE_USER"
        else Username p)
  /\ GetPasswd w p
     = GetPasswd w
         (mkParser (Host (fst (GetPasswd w p))) (Port (fst (GetPasswd w p)))
                   (DbName (fst (GetPasswd w p)))
                   (Username (fst (GetPasswd w p)))
                   (Password p) (OrapassFile p) (files p) (Debug p)).
Proof.
  assert (Hrecv : sameQuery (applyDefaults w p) (fst (GetPasswd w p))).
  { unfold GetPasswd.
    destruct (findPasswordFile w (applyDefaults w p)) as [p1 e] eqn:Hfind.
    apply findPasswordFile_keeps in Hfind.
    destruct e; simpl; [assumption|].
    destruct (negb (GOOS w =? "windows")); simpl; [|assumption].
    destruct (checkFilePerms w p1) as [b [err|]]; assumption. }
  destruct Hrecv as (-> & -> & -> & ->).
  split; [|split; [|split; [|split]]].
  - rewrite applyDefaults_fields. apply coalesce_three.
  - rewrite applyDefaults_fields. apply coalesce_three.
  - rewrite applyDefaults_fields. apply coalesce_two.
  - rewrite applyDefaults_fields. apply coalesce_three.
  - assert (Hq : mkParser (Host (applyDefaults w p)) (Port (applyDefaults w p))
                          (DbName (applyDefaults w p))
                          (Username (applyDefaults w p))
                          (Password p) (OrapassFile p) (files p) (Debug p)
                 = applyDefaults w p)
      by (rewrite applyDefaults_fields; reflexivity).
    rewrite Hq. unfold GetPasswd.
    rewrite applyDefaults_idempotent. reflexivity.
Qed.

(** C10: a line whose fifth field is empty is an entry like any other.  It
    splits into exactly five fields, the last one empty; when discovery and
    permission check pass, it is not a comment, no earlier line is selected
    and its first four fields match the query, [GetPasswd] succeeds and the
    password of the record is the empty string. *)
Theorem empty_password_entry
        (w : World) (p p1 : Parser) (file : FileData)
        (pre post : list string) (t0 t1 t2 t3 : string) :
  findPasswordFile w (applyDefaults w p) = (p1, None) ->
  GOOS w = "windows"
  \/ (exists fi, Stat w (OrapassFile p1) = Ok fi /\ Perm fi = 384%N) ->
  Open w (OrapassFile p1) = Ok file ->
  fst (scanLines file)
  = (pre ++ (entry t0 t1 t2 t3 "") :: post)%list ->
  (forall x, In x pre -> tryLine p1 x = None) ->
  commentRe (entry t0 t1 t2 t3 "") = false ->
  freeOf ":" t0 = true -> freeOf ":" t1 = true ->
  freeOf ":" t2 = true -> freeOf ":" t3 = true ->
  chkForMatch (Host (applyDefaults w p)) t0 = true ->
  chkForMatch (Port (applyDefaults w p)) t1 = true ->
  chkForMatch (DbName (applyDefaults w p)) t2 = true ->
  chkForMatch (Username (applyDefaults w p)) t3 = true ->
  SplitN (entry t0 t1 t2 t3 "") ":" 5
  = [t0; t1; t2; t3; ""]
  /\ exists r, snd (GetPasswd w p) = (r, None) /\ Username r = t3
               /\ Password r = "".
Proof.
  intros Hfind Hperm Hopen Hlines Hpre Hc F0 F1 F2 F3 M0 M1 M2 M3.
  assert (Hsplit : SplitN (entry t0 t1 t2 t3 "")
                          ":" 5 = [t0; t1; t2; t3; ""]).
  { apply SplitN_five. repeat (split; [reflexivity || assumption|]).
    assumption. }
  split; [assumption|].
  rewrite (GetPasswd_scan w p p1 Hfind Hperm). simpl.
  destruct (findPasswordFile_keeps _ _ _ _ Hfind) as (Hh & Hp & Hd & Hu).
  rewrite <- Hh in M0. rewrite <- Hp in M1.
  rewrite <- Hd in M2. rewrite <- Hu in M3.
  eexists. split; [|split].
  - apply (searchFile_found w p1 file); [assumption|].
    rewrite Hlines. apply scanLoop_first; [assumption|].
    apply tryLine_Some. split; [assumption|].
    exists t0, t1, t2, t3, "".
    repeat (split; [assumption|]). reflexivity.
  - reflexivity.
  - reflexivity.
Qed.

Lemma empty_password_entry_witness :
  SplitN "host:1521:db:user:" ":" 5 = ["host"; "1521"; "db"; "user"; ""]
  /\ exists r,
      snd (GetPasswd (homeWorld 384 emptyPasswordFile)
                     (query "host" "1521" "db" "user")) = (r, None)
      /\ Username r = "user" /\ Password r = "".
Proof.
  apply (empty_password_entry
           (homeWorld 384 emptyPasswordFile)
           (query "host" "1521" "db" "user")
           (mkParser "host" "1521" "db" "user" "" "/home/scott/.orapass"
                     ["/home/scott/.orapass"; "/home/scott/orapass"] false)
           (mkFileData emptyPasswordFile None)
           [] [] "host" "1521" "db" "user");
    try reflexivity.
  - right. exists (mkFileInfo true 384). split; reflexivity.
  - intros x [].
Defined.

Lemma isBlank_freeOf (line : string) :
  isBlank line = true -> freeOf ":" line = true.
Proof.
  induction line as [|c line IH]; simpl; [reflexivity|].
  intros H. apply andb_true_iff in H as [Hc Hl].
  rewrite (IH Hl), andb_true_r.
  destruct (Ascii.eqb c ":") eqn:E; [|reflexivity].
  apply Ascii.eqb_eq in E. subst c. discriminate Hc.
Qed.

Lemma skipped_tryLine (p : Parser) (line : string) :
  skipped line -> tryLine p line = None.
Proof.
  intros [Hb|[Hlen|Hc]].
  - apply tryLine_few_fields.
    rewrite (SplitN_free line ":" 4 (isBlank_freeOf line Hb)). simpl. lia.
  - now apply tryLine_few_fields.
  - now apply tryLine_comment.
Qed.

Lemma searchFile_all_skipped
      (w : World) (p : Parser) (file : FileData) (lines : list string) :
  Open w (OrapassFile p) = Ok file ->
  scanLines file = (lines, None) ->
  (forall line, In line lines -> skipped line) ->
  searchFile w p = (zero, Some errNoEntry).
Proof.
  intros Hopen Hscan Hall. unfold searchFile. rewrite Hopen, Hscan.
  rewrite scanLoop_none; [reflexivity|].
  intros x Hx. apply skipped_tryLine. auto.
Qed.

(** What the regular expression recognises is a comment in the words of the
    specification, but not the other way round. *)
Lemma commentRe_wsThenHash (line : string) :
  commentRe line = true -> wsThenHash line = true.
Proof.
  induction line as [|c line IH]; simpl; [discriminate|].
  destruct c as [[] [] [] [] [] [] [] []]; try discriminate; auto.
Qed.

(** C8, as stated, fails: a line that starts with a tab and then [#] is a
    comment in the words of the claim, but the regular expression of
    [searchFile] only passes over space bytes.  Such a line with five
    fields is not skipped, and a file made of it alone answers a query. *)
Lemma tab_comment_not_skipped :
  wsThenHash (tab ++ "#x:1521:emp:scott:tiger") = true
  /\ scanLoop (query (tab ++ "#x") "1521" "emp" "scott")
              [tab ++ "#x:1521:emp:scott:tiger"]
     <> scanLoop (query (tab ++ "#x") "1521" "emp" "scott") []
  /\ snd (GetPasswd (homeWorld 384 (tab ++ "#x:1521:emp:scott:tiger" ++ nl))
                    (query (tab ++ "#x") "1521" "emp" "scott"))
     = (mkParser (tab ++ "#x") "1521" "emp" "scott" "tiger" "" [] false, None).
Proof.
  split; [reflexivity|]. split; [discriminate | reflexivity].
Qed.

(** C8 (amended): every line that is blank, splits into fewer than five
    colon-separated fields, or consists of optional leading space bytes
    (0x20, not tabs) followed by [#] is passed over by the scan without an
    error; and when the file opens, the scanner reaches its end without a
    read error and every line it delivers is such a line, [searchFile] ends
    with the not-found error, whatever the query. *)
Theorem skipped_lines_then_not_found
        (w : World) (p : Parser) (file : FileData) (lines : list string) :
  Open w (OrapassFile p) = Ok file ->
  scanLines file = (lines, None) ->
  (forall line, In line lines -> skipped line) ->
  (forall q line rest, skipped line ->
                       scanLoop q (line :: rest) = scanLoop q rest)
  /\ searchFile w p = (zero, Some errNoEntry).
Proof.
  intros Hopen Hscan Hall. split.
  - intros q line rest Hs. simpl. now rewrite (skipped_tryLine q line Hs).
  - now apply (searchFile_all_skipped w p file lines).
Qed.

Lemma skipped_lines_then_not_found_witness :
  (forall q line rest, skipped line ->
                       scanLoop q (line :: rest) = scanLoop q rest)
  /\ searchFile (homeWorld 384 commentFile)
                (mkParser "localhost" "1521" "emp" "scott" ""
                          "/home/scott/.orapass" [] false)
     = (zero, Some errNoEntry).
Proof.
  apply (skipped_lines_then_not_found
           (homeWorld 384 commentFile) _ (mkFileData commentFile None)
           ["# orapass"; ""; "   # host:port:db:user:password";
            "#localhost:1521:emp:scott:tiger"; "  "]);
    try reflexivity.
  intros line [<-|[<-|[<-|[<-|[<-|[]]]]]]; unfold skipped; simpl; auto.
Defined.

(** On the system of [homeWorld] a file of comments and blank lines gives
    the not-found error for every query. *)
Example comment_file_never_answers (h po d u : string) :
  snd (GetPasswd (homeWorld 384 commentFile) (query h po d u))
  = (zero, Some errNoEntry).
Proof.
  rewrite (GetPasswd_scan _ _
             (mkParser (coalesce [h; ""; "localhost"]) (coalesce [po; ""; "1521"])
                       (coalesce [d; ""]) (coalesce [u; ""; "scott"]) ""
                       "/home/scott/.orapass"
                       ["/home/scott/.orapass"; "/home/scott/orapass"] false)).
  - simpl.
    apply (searchFile_all_skipped _ _ (mkFileData commentFile None)
             ["# orapass"; ""; "   # host:port:db:user:password";
              "#localhost:1521:emp:scott:tiger"; "  "]);
      try reflexivity.
    intros line [<-|[<-|[<-|[<-|[<-|[]]]]]]; unfold skipped; simpl; auto.
  - reflexivity.
  - right. exists (mkFileInfo true 384). split; reflexivity.
Qed.

End ParserProperties.

(** ** The same properties in the [PwRec] generation *)

Module PwRecFacts.
Import OrapassPwRec.

Lemma pwrec_tryLine_Some (p : PwRec) (line : string) (r : PwRec) :
  tryLine p line = Some r <->
  commentRe line = false
  /\ exists t0 t1 t2 t3 t4,
      SplitN line ":" 5 = [t0; t1; t2; t3; t4]
      /\ chkForMatch (Host p) t0 = true
      /\ chkForMatch (Port p) t1 = true
      /\ chkForMatch (DbName p) t2 = true
      /\ chkForMatch (Username p) t3 = true
      /\ r = mkPwRec (pickParm (Host p) t0) (pickParm (Port p) t1)
                     (pickParm (DbName p) t2) t3 t4 "".
Proof.
  unfold tryLine. split.
  - destruct (commentRe line); [discriminate|].
    pose proof (SplitN_length line ":" 5) as Hlen.
    destruct (SplitN line ":" 5) as [|t0 [|t1 [|t2 [|t3 [|t4 rest]]]]];
      try discriminate.
    destruct rest; [|simpl in Hlen; lia].
    destruct (chkForMatch (Host p) t0) eqn:H0; [|discriminate].
    destruct (chkForMatch (Port p) t1) eqn:H1; [|discriminate].
    destruct (chkForMatch (DbName p) t2) eqn:H2; [|discriminate].
    destruct (chkForMatch (Username p) t3) eqn:H3; [|discriminate].
    simpl. intros H. inversion H; subst; clear H.
    split; [reflexivity|]. exists t0, t1, t2, t3, t4.
    repeat (split; [assumption || reflexivity|]). reflexivity.
  - intros (-> & t0 & t1 & t2 & t3 & t4 & -> & -> & -> & -> & -> & ->).
    reflexivity.
Qed.

Lemma pwrec_scanLoop_first (p : PwRec) (pre post : list string)
      (line : string) (r : PwRec) :
  (forall x, In x pre -> tryLine p x = None) ->
  tryLine p line = Some r ->
  scanLoop p (pre ++ line :: post) = Some r.
Proof.
  induction pre as [|x pre IH]; simpl; intros Hpre Hline.
  - now rewrite Hline.
  - rewrite (Hpre x (or_introl eq_refl)). apply IH; auto.
Qed.

Lemma pwrec_scanLoop_Some (p : PwRec) (lines : list string) (r : PwRec) :
  scanLoop p lines = Some r ->
  exists line, In line lines /\ tryLine p line = Some r.
Proof.
  induction lines as [|x lines IH]; simpl; [discriminate|].
  destruct (tryLine p x) eqn:Hx.
  - intros H; inversion H; subst. exists x. auto.
  - intros H. destruct (IH H) as (l & Hin & Hl). exists l. auto.
Qed.

Lemma pwrec_searchFile_result (w : World) (p r : PwRec) (e : option error) :
  searchFile w p = (r, e) ->
  match e with
  | Some _ => r = zero
  | None => exists s line,
      ReadFile w (OrapassFile p) = Ok s
      /\ In line (Split s "010") /\ tryLine p line = Some r
  end.
Proof.
  unfold searchFile.
  destruct (ReadFile w (OrapassFile p)) as [s|e0].
  - destruct (scanLoop p (Split s "010")) as [found|] eqn:Hloop.
    + intros H; inversion H; subst.
      apply pwrec_scanLoop_Some in Hloop as (line & Hin & Hl).
      exists s, line. auto.
    + intros H; inversion H; reflexivity.
  - intros H; inversion H; reflexivity.
Qed.

Lemma pwrec_findLoop_keeps (w : World) (fs : list string) (p q : PwRec)
      (e : option error) :
  findLoop w fs p = (q, e) ->
  Host q = Host p /\ Port q = Port p /\ DbName q = DbName p
  /\ Username q = Username p.
Proof.
  revert p q e. induction fs as [|f fs IH]; simpl; intros p q e H.
  - inversion H; subst. repeat split.
  - destruct (fileExists w f) as [[|] [err|]];
      try (inversion H; subst; repeat split; fail).
    eauto.
Qed.

Lemma pwrec_GetPasswd_unix (w : World) (p : PwRec) :
  GOOS w <> "windows" ->
  snd (GetPasswd w p) =
  match findPasswordFile w p with
  | (_, Some err) => (zero, Some err)
  | (p1, None) =>
      match Stat w (OrapassFile p1) with
      | Err e => (zero, Some e)
      | Ok fi =>
          if (Perm fi =? 384)%N then searchFile w p1
          else (zero, Some (errBadPerms (Perm fi)))
      end
  end.
Proof.
  intros Hos. apply String.eqb_neq in Hos.
  unfold GetPasswd, checkFilePerms, permbits_Stat. rewrite Hos. simpl.
  destruct (findPasswordFile w p) as [p1 [err|]]; [reflexivity|].
  destruct (Stat w (OrapassFile p1)) as [fi|e]; [|reflexivity].
  destruct (Perm fi =? 384)%N; reflexivity.
Qed.

Lemma pwrec_GetPasswd_success (w : World) (p r : PwRec) :
  snd (GetPasswd w p) = (r, None) ->
  exists p1, findPasswordFile w p = (p1, None)
             /\ searchFile w p1 = (r, None).
Proof.
  unfold GetPasswd.
  destruct (findPasswordFile w p) as [p1 [err|]]; simpl; [discriminate|].
  destruct (negb (GOOS w =? "windows")); simpl.
  - destruct (checkFilePerms w p1) as [b [err|]]; simpl; [discriminate|].
    intros H. exists p1. auto.
  - intros H. exists p1. auto.
Qed.

(** First match wins ([PwRec.searchFile]). *)
Lemma pwrec_first_match_wins
      (w : World) (p : PwRec) (s : string)
      (pre post : list string) (line t0 t1 t2 t3 t4 : string) :
  ReadFile w (OrapassFile p) = Ok s ->
  Split s "010" = (pre ++ line :: post)%list ->
  (forall x, In x pre -> tryLine p x = None) ->
  commentRe line = false ->
  SplitN line ":" 5 = [t0; t1; t2; t3; t4] ->
  chkForMatch (Host p) t0 = true ->
  chkForMatch (Port p) t1 = true ->
  chkForMatch (DbName p) t2 = true ->
  chkForMatch (Username p) t3 = true ->
  searchFile w p
  = (mkPwRec (pickParm (Host p) t0) (pickParm (Port p) t1)
             (pickParm (DbName p) t2) t3 t4 "", None).
Proof.
  intros Hread Hlines Hpre Hc Hsplit H0 H1 H2 H3.
  unfold searchFile. rewrite Hread, Hlines.
  rewrite (pwrec_scanLoop_first p pre post line
             (mkPwRec (pickParm (Host p) t0) (pickParm (Port p) t1)
                      (pickParm (DbName p) t2) t3 t4 ""));
    [reflexivity | assumption |].
  apply pwrec_tryLine_Some. split; [assumption|].
  exists t0, t1, t2, t3, t4. repeat (split; [assumption|]). reflexivity.
Qed.

(** A wildcard of the line in host, port or database position is replaced
    by the caller's value ([PwRec.searchFile]). *)
Lemma pwrec_wildcard_resolved (w : World) (p r : PwRec) :
  snd (GetPasswd w p) = (r, None) ->
  (Host r = "*" -> Host p = "*")
  /\ (Port r = "*" -> Port p = "*")
  /\ (DbName r = "*" -> DbName p = "*").
Proof.
  intros H. apply pwrec_GetPasswd_success in H as (p1 & Hfind & Hsearch).
  apply pwrec_findLoop_keeps in Hfind as (Hh & Hp & Hd & _).
  apply (pwrec_searchFile_result w p1 r None) in Hsearch
    as (s & line & _ & _ & Hline).
  apply pwrec_tryLine_Some in Hline
    as (_ & t0 & t1 & t2 & t3 & t4 & _ & _ & _ & _ & _ & ->).
  rewrite <- Hh, <- Hp, <- Hd. simpl. unfold pickParm.
  repeat split.
  - destruct (t0 =? "*") eqn:E; simpl; [auto|].
    destruct (t0 =? ""); simpl; [auto|].
    intros ->. discriminate.
  - destruct (t1 =? "*") eqn:E; simpl; [auto|].
    destruct (t1 =? ""); simpl; [auto|].
    intros ->. discriminate.
  - destruct (t2 =? "*") eqn:E; simpl; [auto|].
    destruct (t2 =? ""); simpl; [auto|].
    intros ->. discriminate.
Qed.

(** A mode other than 0600 is refused ([PwRec.checkFilePerms]). *)
Lemma pwrec_bad_permissions_rejected (w : World) (p p1 : PwRec) (fi : FileInfo) :
  GOOS w <> "windows" ->
  findPasswordFile w p = (p1, None) ->
  Stat w (OrapassFile p1) = Ok fi ->
  Perm fi <> 384%N ->
  snd (GetPasswd w p)
  = (zero,
     Some (ErrorString
             ("Permissions on file are incorrect. Should be 600, got "
              ++ fmtOctal (Perm fi)))).
Proof.
  intros Hos Hfind Hstat Hperm.
  rewrite (pwrec_GetPasswd_unix w p Hos), Hfind, Hstat.
  apply N.eqb_neq in Hperm. now rewrite Hperm.
Qed.

(** The test file in the [PwRec] generation: the same answers, and an empty
    fifth field gives an empty password. *)
Example pwrec_test_file :
  snd (GetPasswd (homeWorld 384 testFile)
                 (queryRec "localhost" "1521" "emp" "scott"))
  = (mkPwRec "localhost" "1521" "emp" "scott" "tiger" "", None)
  /\ snd (GetPasswd (homeWorld 420 testFile)
                    (queryRec "localhost" "1521" "emp" "scott"))
     = (zero, Some (errBadPerms 420))
  /\ snd (GetPasswd (homeWorld 384 ("host:1521:db:user:" ++ nl))
                    (queryRec "host" "1521" "db" "user"))
     = (mkPwRec "host" "1521" "db" "user" "" "", None)
  /\ snd (GetPasswd (homeWorld 384 testFile)
                    (queryRec "localhost" "" "emp" "scott"))
     = (mkPwRec "localhost" "" "emp" "scott" "cat" "", None).
Proof. repeat split. Qed.

End PwRecFacts.

(** ** Further properties: splitting *)

Lemma SplitN_nonempty (s : string) (sep : ascii) (n : nat) :
  SplitN s sep (S n) <> [].
Proof.
  simpl. destruct n; [discriminate|].
  destruct (cut sep s) as [[b r]|]; discriminate.
Qed.

Lemma concat_cons (sep x : string) (l : list string) :
  l <> [] -> String.concat sep (x :: l) = x ++ sep ++ String.concat sep l.
Proof. destruct l; [contradiction | reflexivity]. Qed.

(** X1: [strings.SplitN] loses nothing.  For a positive count the pieces,
    joined again with the separator, are the text that was split; there
    are between one and [n] of them; and every piece but the last is free
    of the separator. *)
Theorem SplitN_round_trip (s : string) (sep : ascii) (n : nat) :
  0 < n ->
  String.concat (String sep "") (SplitN s sep n) = s
  /\ 1 <= length (SplitN s sep n) <= n
  /\ Forall (fun piece => freeOf sep piece = true)
            (removelast (SplitN s sep n)).
Proof.
  intros Hn. destruct n as [|n]; [lia|clear Hn].
  revert s. induction n as [|n IH]; intros s.
  - simpl. repeat split; auto.
  - change (SplitN s sep (S (S n)))
      with (match cut sep s with
            | None => [s]
            | Some (before, rest) => before :: SplitN rest sep (S n)
            end).
    destruct (cut sep s) as [[b r]|] eqn:Hcut.
    + apply cut_Some in Hcut as [-> Hfree].
      destruct (IH r) as (Hj & Hlen & Hall).
      pose proof (SplitN_nonempty r sep n) as Hne.
      rewrite (concat_cons _ _ _ Hne), Hj.
      split; [reflexivity|]. split.
      * cbn [length]. lia.
      * destruct (SplitN r sep (S n)) as [|x l] eqn:E; [contradiction|].
        cbn [removelast]. constructor; assumption.
    + simpl. repeat split; auto; lia.
Qed.

Lemma SplitN_round_trip_witness :
  String.concat ":" (SplitN "host:1521:db:user:pa:ss:word" ":" 5)
  = "host:1521:db:user:pa:ss:word"
  /\ 1 <= length (SplitN "host:1521:db:user:pa:ss:word" ":" 5) <= 5
  /\ Forall (fun piece => freeOf ":" piece = true)
            (removelast (SplitN "host:1521:db:user:pa:ss:word" ":" 5)).
Proof.
  apply (SplitN_round_trip "host:1521:db:user:pa:ss:word" ":" 5). lia.
Defined.

Lemma Split_nonempty (s : string) (sep : ascii) : Split s sep <> [].
Proof.
  destruct s as [|c s]; simpl; [discriminate|].
  destruct (Ascii.eqb c sep); [discriminate|].
  destruct (Split s sep); discriminate.
Qed.

Lemma Split_pieces (s : string) (sep : ascii) :
  String.concat (String sep "") (Split s sep) = s
  /\ Forall (fun piece => freeOf sep piece = true) (Split s sep).
Proof.
  induction s as [|c s [IHj IHf]]; simpl.
  - split; [reflexivity | repeat constructor].
  - destruct (Ascii.eqb c sep) eqn:Hc.
    + apply Ascii.eqb_eq in Hc. subst c.
      rewrite (concat_cons _ _ _ (Split_nonempty s sep)), IHj.
      split; [reflexivity|]. constructor; [reflexivity | assumption].
    + pose proof (Split_nonempty s sep) as Hne.
      destruct (Split s sep) as [|hd tl]; [contradiction|].
      inversion IHf as [|? ? Hhd Htl]; subst. split.
      * destruct tl as [|x tl]; simpl in *; congruence.
      * constructor; [|assumption]. simpl. now rewrite Hc.
Qed.

Lemma Split_app_free (piece rest : string) (sep : ascii) :
  freeOf sep piece = true ->
  Split (piece ++ String sep rest) sep = piece :: Split rest sep.
Proof.
  induction piece as [|c piece IH]; simpl; intros Hf.
  - now rewrite Ascii.eqb_refl.
  - apply andb_true_iff in Hf as [Hc Hp]. apply negb_true_iff in Hc.
    now rewrite Hc, (IH Hp).
Qed.

Lemma Split_free (piece : string) (sep : ascii) :
  freeOf sep piece = true -> Split piece sep = [piece].
Proof.
  induction piece as [|c piece IH]; simpl; intros Hf; [reflexivity|].
  apply andb_true_iff in Hf as [Hc Hp]. apply negb_true_iff in Hc.
  now rewrite Hc, (IH Hp).
Qed.

Lemma Split_concat (sep : ascii) (pieces : list string) :
  pieces <> [] ->
  Forall (fun piece => freeOf sep piece = true) pieces ->
  Split (String.concat (String sep "") pieces) sep = pieces.
Proof.
  induction pieces as [|x l IH]; intros Hne Hall; [contradiction|].
  inversion Hall; subst.
  destruct l as [|y l].
  - simpl. now apply Split_free.
  - rewrite concat_cons by discriminate.
    change (String sep "" ++ String.concat (String sep "") (y :: l))
      with (String sep (String.concat (String sep "") (y :: l))).
    rewrite Split_app_free by assumption.
    f_equal. apply IH; [discriminate | assumption].
Qed.

(** X2: [strings.Split] and joining are inverse.  The pieces of a text are
    never none, hold no separator, and joined with the separator give the
    text back; and a non-empty list of separator-free pieces, joined and
    split again, is the same list. *)
Theorem Split_round_trip (sep : ascii) :
  (forall s,
      Split s sep <> []
      /\ String.concat (String sep "") (Split s sep) = s
      /\ Forall (fun piece => freeOf sep piece = true) (Split s sep))
  /\ (forall pieces,
        pieces <> [] ->
        Forall (fun piece => freeOf sep piece = true) pieces ->
        Split (String.concat (String sep "") pieces) sep = pieces).
Proof.
  split.
  - intros s. split; [apply Split_nonempty | apply Split_pieces].
  - apply Split_concat.
Qed.

Lemma spaces_comment (n : nat) (rest : string) :
  commentRe (spaces n ++ String "#" rest) = true.
Proof. induction n as [|n IH]; simpl; [reflexivity | exact IH]. Qed.

(** X3: the comment pattern [^ *#] accepts exactly the lines that are some
    number of space bytes, possibly none, followed by [#] and anything. *)
Theorem commentRe_characterised (line : string) :
  commentRe line = true <->
  exists n rest, line = spaces n ++ String "#" rest.
Proof.
  split.
  - induction line as [|c line IH]; simpl; [discriminate|].
    destruct (Ascii.eqb c " ") eqn:Hsp.
    + apply Ascii.eqb_eq in Hsp. subst c. intros H.
      destruct (IH H) as (n & rest & ->). exists (S n), rest. reflexivity.
    + destruct (Ascii.eqb c "#") eqn:Hh.
      * apply Ascii.eqb_eq in Hh. subst c. intros _.
        exists 0, line. reflexivity.
      * destruct c as [[] [] [] [] [] [] [] []]; try discriminate.
  - intros (n & rest & ->). apply spaces_comment.
Qed.

(** ** Further properties: letter case *)

Lemma upperByte_idempotent (c : ascii) : upperByte (upperByte c) = upperByte c.
Proof. destruct c as [[] [] [] [] [] [] [] []]; reflexivity. Qed.

Lemma upperByte_star (c : ascii) : upperByte c = "*"%char -> c = "*"%char.
Proof. destruct c as [[] [] [] [] [] [] [] []]; intros H; try discriminate H; reflexivity. Qed.

Lemma ToUpper_idempotent (s : string) : ToUpper (ToUpper s) = ToUpper s.
Proof.
  induction s as [|c s IH]; simpl; [reflexivity|].
  now rewrite upperByte_idempotent, IH.
Qed.

Lemma ToUpper_length (s : string) : String.length (ToUpper s) = String.length s.
Proof. induction s as [|c s IH]; simpl; congruence. Qed.

Lemma ToUpper_star (s : string) : (ToUpper s =? "*") = (s =? "*").
Proof.
  destruct (s =? "*") eqn:E.
  - apply String.eqb_eq in E. now subst.
  - apply String.eqb_neq. intros H. apply String.eqb_neq in E. apply E.
    destruct s as [|c [|d s]]; try discriminate H.
    simpl in H. inversion H as [Hc]. now rewrite (upperByte_star c Hc).
Qed.

Lemma ToUpper_is_empty (s : string) : (ToUpper s =? "") = (s =? "").
Proof. destruct s; reflexivity. Qed.

(** X4: the field match does not see the letter case of either side: in
    both generations its answer is the same when the calling parameter or
    the file parameter is replaced by its upper-case form, and a parameter
    always matches itself. *)
Theorem chkForMatch_ignores_case (callingParm fileParm : string) :
  OrapassParser.chkForMatch (ToUpper callingParm) fileParm
  = OrapassParser.chkForMatch callingParm fileParm
  /\ OrapassParser.chkForMatch callingParm (ToUpper fileParm)
     = OrapassParser.chkForMatch callingParm fileParm
  /\ OrapassPwRec.chkForMatch (ToUpper callingParm) fileParm
     = OrapassPwRec.chkForMatch callingParm fileParm
  /\ OrapassPwRec.chkForMatch callingParm (ToUpper fileParm)
     = OrapassPwRec.chkForMatch callingParm fileParm
  /\ OrapassParser.chkForMatch callingParm callingParm = true
  /\ OrapassPwRec.chkForMatch callingParm callingParm = true.
Proof.
  unfold OrapassParser.chkForMatch, OrapassPwRec.chkForMatch.
  rewrite !ToUpper_idempotent, !ToUpper_star, !ToUpper_is_empty.
  rewrite String.eqb_refl. repeat split.
Qed.

(** ** Further properties: the scanner *)

Lemma append_empty_r (s : string) : s ++ "" = s.
Proof. induction s as [|c s IH]; simpl; congruence. Qed.

Lemma append_assoc3 (a b c : string) : (a ++ b) ++ c = a ++ b ++ c.
Proof. induction a as [|x a IH]; simpl; congruence. Qed.

Lemma append_length (a b : string) :
  String.length (a ++ b) = String.length a + String.length b.
Proof. induction a as [|x a IH]; simpl; congruence. Qed.

(** The scanner on a line that ends with a newline. *)
Lemma scanFrom_line (line : string) :
  forall (cur rest : string) (rerr : option error),
  freeOf "010" line = true ->
  scanFrom cur (line ++ String "010" rest) rerr
  = if (N.of_nat (String.length (cur ++ line)) <? MaxScanTokenSize)%N
    then (dropCR (cur ++ line) :: fst (scanFrom "" rest rerr),
          snd (scanFrom "" rest rerr))
    else ([], Some ErrTooLong).
Proof.
  induction line as [|c line IH]; intros cur rest rerr Hfree.
  - rewrite append_empty_r. simpl.
    destruct (N.of_nat (String.length cur) <? MaxScanTokenSize)%N;
      [|reflexivity].
    destruct (scanFrom "" rest rerr); reflexivity.
  - simpl in Hfree. apply andb_true_iff in Hfree as [Hc Hl].
    apply negb_true_iff in Hc. cbn [append scanFrom]. rewrite Hc.
    rewrite (IH _ _ _ Hl), append_assoc3. reflexivity.
Qed.

(** The scanner on the bytes after the last newline. *)
Lemma scanFrom_last (line : string) :
  forall (cur : string) (rerr : option error),
  freeOf "010" line = true ->
  scanFrom cur line rerr
  = if (cur ++ line =? "")%string then ([], rerr)
    else if (N.of_nat (String.length (cur ++ line)) <? MaxScanTokenSize)%N
         then ([dropCR (cur ++ line)], rerr)
         else ([], Some ErrTooLong).
Proof.
  induction line as [|c line IH]; intros cur rerr Hfree.
  - rewrite append_empty_r. reflexivity.
  - simpl in Hfree. apply andb_true_iff in Hfree as [Hc Hl].
    apply negb_true_iff in Hc. cbn [scanFrom]. rewrite Hc.
    rewrite (IH _ _ Hl), append_assoc3. reflexivity.
Qed.

Lemma scanFrom_terminated (raws : list string) (tail : string)
      (rerr : option error) :
  Forall scannable raws ->
  scanFrom "" (terminated nl raws ++ tail) rerr
  = ((map dropCR raws ++ fst (scanFrom "" tail rerr))%list,
     snd (scanFrom "" tail rerr)).
Proof.
  induction 1 as [|raw raws [Hfree Hlen] _ IH]; simpl.
  - destruct (scanFrom "" tail rerr); reflexivity.
  - rewrite !append_assoc3.
    change (String "010" (terminated nl raws) ++ tail)
      with (String "010" (terminated nl raws ++ tail)).
    rewrite (scanFrom_line raw "" _ rerr Hfree). simpl (append "" raw).
    apply N.ltb_lt in Hlen. rewrite Hlen, IH. reflexivity.
Qed.

Lemma dropCR_append_CR (line : string) :
  dropCR (line ++ String "013" "") = line.
Proof.
  induction line as [|c line IH]; [reflexivity|].
  cbn [append dropCR]. rewrite IH.
  destruct (line ++ String "013" "") eqn:E; [|reflexivity].
  destruct line; discriminate E.
Qed.

Lemma terminated_crlf (lines : list string) :
  terminated crlf lines
  = terminated nl (map (fun line => line ++ String "013" "") lines).
Proof.
  induction lines as [|l lines IH]; simpl; [reflexivity|].
  rewrite IH, append_assoc3. reflexivity.
Qed.

Lemma scannable_without_CR (line : string) :
  scannable (line ++ String "013" "") -> scannable line.
Proof.
  intros [Hfree Hlen]. split.
  - clear Hlen. induction line as [|c line IH]; [reflexivity|].
    simpl in *. apply andb_true_iff in Hfree as [Hc Hl].
    now rewrite Hc, (IH Hl).
  - rewrite append_length in Hlen. simpl in Hlen. lia.
Qed.

Lemma scanLines_terminated (raws : list string) (rerr : option error) :
  Forall scannable raws ->
  scanLines (mkFileData (terminated nl raws) rerr) = (map dropCR raws, rerr).
Proof.
  intros Hall. unfold scanLines. cbn [bytes readErr].
  rewrite <- (append_empty_r (terminated nl raws)).
  rewrite (scanFrom_terminated raws "" rerr Hall). simpl.
  now rewrite app_nil_r.
Qed.

(** X5: what the scanner makes of a text file.  When every line is
    scannable (no newline inside, fewer than 64 KiB), a file of lines each
    ended by a newline is delivered as those lines, one trailing carriage
    return removed from each, and [scanner.Err()] is the read error of the
    file if it has one; a last line without newline is delivered too when
    it is not empty. *)
Theorem scanLines_round_trip (raws : list string) (rerr : option error) :
  Forall scannable raws ->
  scanLines (mkFileData (terminated nl raws) rerr) = (map dropCR raws, rerr)
  /\ (forall last, scannable last -> last <> "" ->
        scanLines (mkFileData (terminated nl raws ++ last) rerr)
        = (map dropCR (raws ++ [last]), rerr)).
Proof.
  intros Hall. split.
  - now apply scanLines_terminated.
  - intros last [Hfree Hlen] Hne. unfold scanLines. cbn [bytes readErr].
    rewrite (scanFrom_terminated raws last rerr Hall).
    rewrite (scanFrom_last last "" rerr Hfree). simpl (append "" last).
    apply String.eqb_neq in Hne. rewrite Hne.
    apply N.ltb_lt in Hlen. rewrite Hlen. simpl.
    now rewrite map_app.
Qed.

Lemma scanLines_round_trip_witness :
  scanLines (mkFileData
               (terminated nl ["localhost:1521:emp:scott:tiger";
                               "localhost:1521:*:scott:lion"]) None)
  = (map dropCR ["localhost:1521:emp:scott:tiger";
                 "localhost:1521:*:scott:lion"], None)
  /\ (forall last, scannable last -> last <> "" ->
        scanLines (mkFileData
                     (terminated nl ["localhost:1521:emp:scott:tiger";
                                     "localhost:1521:*:scott:lion"] ++ last)
                     None)
        = (map dropCR (["localhost:1521:emp:scott:tiger";
                        "localhost:1521:*:scott:lion"] ++ [last]), None)).
Proof.
  apply (scanLines_round_trip
           ["localhost:1521:emp:scott:tiger"; "localhost:1521:*:scott:lion"]
           None).
  repeat constructor.
Defined.

(** Line endings.  A file written with DOS line endings (carriage
    return, line feed) is delivered by the scanner as the very lines it was
    written from, and so is a file written with newlines alone when no line
    ends in a carriage return: the two files scan alike. *)
Theorem scanLines_line_endings (lines : list string) (rerr : option error) :
  Forall (fun line => scannable (line ++ String "013" "")) lines ->
  scanLines (mkFileData (terminated crlf lines) rerr) = (lines, rerr)
  /\ (Forall (fun line => dropCR line = line) lines ->
      scanLines (mkFileData (terminated nl lines) rerr) = (lines, rerr)).
Proof.
  intros Hall. split.
  - rewrite terminated_crlf.
    rewrite (scanLines_terminated _ rerr (proj2 (Forall_map _ _ _) Hall)).
    f_equal. rewrite map_map. clear.
    induction lines as [|l lines IH]; simpl; [reflexivity|].
    now rewrite dropCR_append_CR, IH.
  - intros Hcr.
    assert (Hs : Forall scannable lines).
    { eapply Forall_impl; [|exact Hall]. apply scannable_without_CR. }
    rewrite (scanLines_terminated _ rerr Hs). f_equal.
    clear Hall Hs. induction Hcr as [|l lines Hl _ IH]; simpl;
      [reflexivity|]. now rewrite Hl, IH.
Qed.

Lemma scanLines_line_endings_witness :
  scanLines (mkFileData
               (terminated crlf ["localhost:1521:emp:scott:tiger";
                                 "localhost:1521:*:scott:lion"]) None)
  = (["localhost:1521:emp:scott:tiger"; "localhost:1521:*:scott:lion"], None)
  /\ (Forall (fun line => dropCR line = line)
             ["localhost:1521:emp:scott:tiger"; "localhost:1521:*:scott:lion"] ->
      scanLines (mkFileData
                   (terminated nl ["localhost:1521:emp:scott:tiger";
                                   "localhost:1521:*:scott:lion"]) None)
      = (["localhost:1521:emp:scott:tiger"; "localhost:1521:*:scott:lion"],
         None)).
Proof.
  apply (scanLines_line_endings
           ["localhost:1521:emp:scott:tiger"; "localhost:1521:*:scott:lion"]
           None).
  repeat constructor.
Defined.

Lemma scanFrom_too_long (long tail : string) (rerr : option error) :
  freeOf "010" long = true ->
  (MaxScanTokenSize <= N.of_nat (String.length long))%N ->
  tail = "" \/ (exists rest, tail = nl ++ rest) ->
  scanFrom "" (long ++ tail) rerr = ([], Some ErrTooLong).
Proof.
  intros Hfree Hlen [->|(rest & ->)].
  - rewrite append_empty_r, (scanFrom_last long "" rerr Hfree).
    simpl (append "" long).
    destruct long as [|c long]; [simpl in Hlen; unfold MaxScanTokenSize in Hlen; lia|].
    apply N.ltb_ge in Hlen. now rewrite Hlen.
  - change (nl ++ rest) with (String "010" rest).
    rewrite (scanFrom_line long "" rest rerr Hfree). simpl (append "" long).
    apply N.ltb_ge in Hlen. now rewrite Hlen.
Qed.

(** ** Further properties of the resolver ([Parser] generation) *)

Module ParserMore.
Import OrapassParser ParserFacts.

(** X7: a line of 64 KiB or more ends the scan.  When the lines before it
    are scannable and none of them is selected, [searchFile] fails with
    [bufio.ErrTooLong]; whatever follows the long line, a matching entry
    included, is never examined. *)
Theorem long_line_stops_search
        (w : World) (p : Parser) (raws : list string)
        (long tail : string) (rerr : option error) :
  Open w (OrapassFile p)
  = Ok (mkFileData (terminated nl raws ++ long ++ tail) rerr) ->
  Forall scannable raws ->
  freeOf "010" long = true ->
  (MaxScanTokenSize <= N.of_nat (String.length long))%N ->
  tail = "" \/ (exists rest, tail = nl ++ rest) ->
  (forall x, In x (map dropCR raws) -> tryLine p x = None) ->
  searchFile w p = (zero, Some ErrTooLong).
Proof.
  intros Hopen Hraws Hfree Hlen Htail Hnone.
  unfold searchFile. rewrite Hopen. unfold scanLines. cbn [bytes readErr].
  rewrite (scanFrom_terminated raws (long ++ tail) rerr Hraws).
  rewrite (scanFrom_too_long long tail rerr Hfree Hlen Htail).
  cbn [fst snd]. rewrite app_nil_r, (scanLoop_none p _ Hnone). reflexivity.
Qed.

Lemma long_line_stops_search_witness :
  searchFile
    (homeWorld 384
       (terminated nl ["# orapass"] ++ longLine
        ++ (nl ++ "localhost:1521:emp:scott:tiger" ++ nl)))
    (mkParser "localhost" "1521" "emp" "scott" "" "/home/scott/.orapass"
              [] false)
  = (zero, Some ErrTooLong).
Proof.
  apply (long_line_stops_search
           (homeWorld 384
              (terminated nl ["# orapass"] ++ longLine
               ++ (nl ++ "localhost:1521:emp:scott:tiger" ++ nl)))
           (mkParser "localhost" "1521" "emp" "scott" ""
                     "/home/scott/.orapass" [] false)
           ["# orapass"] longLine
           (nl ++ "localhost:1521:emp:scott:tiger" ++ nl) None).
  - reflexivity.
  - repeat constructor.
  - vm_compute. reflexivity.
  - vm_compute. discriminate.
  - right. exists ("localhost:1521:emp:scott:tiger" ++ nl). reflexivity.
  - intros x [<-|[]]. reflexivity.
Defined.

(** X8: [coalesce] returns the first non-empty string of its list: either
    every string of the list is empty and so is the result, or the result
    is a non-empty element of the list with only empty strings before it. *)
Theorem coalesce_characterised (s : list string) :
  (coalesce s = "" /\ Forall (fun x => x = "") s)
  \/ (coalesce s <> ""
      /\ exists before after,
          s = (before ++ coalesce s :: after)%list
          /\ Forall (fun x => x = "") before).
Proof.
  destruct (ParserProperties.coalesce_first_nonempty s (coalesce s) eq_refl)
    as [[Hne Hex]|[He Hall]]; [right | left]; auto.
Qed.

(** X9: after the default substitution the host and the port searched with
    are never empty, so a [*] in the host or port position of a line
    matches every query; the database has no default, and when neither the
    caller nor ORACLE_SID gives one, a [*] in the database position does
    not match. *)
Theorem wildcard_after_defaults (w : World) (p : Parser) :
  Host (applyDefaults w p) <> ""
  /\ Port (applyDefaults w p) <> ""
  /\ chkForMatch (Host (applyDefaults w p)) "*" = true
  /\ chkForMatch (Port (applyDefaults w p)) "*" = true
  /\ (DbName p = "" -> Getenv w "ORACLE_SID" = "" ->
      chkForMatch (DbName (applyDefaults w p)) "*" = false).
Proof.
  assert (Hh : Host (applyDefaults w p) <> "").
  { rewrite ParserProperties.applyDefaults_fields. cbn [Host].
    rewrite ParserProperties.coalesce_three.
    destruct (Host p =? "") eqn:E1.
    - destruct (Getenv w "ORACLE_HOST" =? "") eqn:E2; [discriminate|].
      now apply String.eqb_neq.
    - now apply String.eqb_neq. }
  assert (Hp : Port (applyDefaults w p) <> "").
  { rewrite ParserProperties.applyDefaults_fields. cbn [Port].
    rewrite ParserProperties.coalesce_three.
    destruct (Port p =? "") eqn:E1.
    - destruct (Getenv w "ORACLE_PORT" =? "") eqn:E2; [discriminate|].
      now apply String.eqb_neq.
    - now apply String.eqb_neq. }
  repeat split; try assumption.
  - apply Parser_chkForMatch_spec. right. auto.
  - apply Parser_chkForMatch_spec. right. auto.
  - intros Hd Hsid. rewrite ParserProperties.applyDefaults_fields.
    cbn [DbName]. rewrite Hd, Hsid. reflexivity.
Qed.

Lemma findLoop_hit (w : World) (pre post : list string) (f : string)
      (p : Parser) :
  Forall (fun x => fileExists w x = (false, None)) pre ->
  fileExists w f = (true, None) ->
  findLoop w (pre ++ f :: post) p = (setOrapassFile f p, None).
Proof.
  induction 1 as [|x pre Hx _ IH]; simpl; intros Hf.
  - now rewrite Hf.
  - rewrite Hx. now apply IH.
Qed.

Lemma findLoop_error (w : World) (pre post : list string) (f : string)
      (p : Parser) (b : bool) (e : error) :
  Forall (fun x => fileExists w x = (false, None)) pre ->
  fileExists w f = (b, Some e) ->
  findLoop w (pre ++ f :: post) p = (p, Some e).
Proof.
  induction 1 as [|x pre Hx _ IH]; simpl; intros Hf.
  - rewrite Hf. now destruct b.
  - rewrite Hx. now apply IH.
Qed.

Lemma passedOver_fileExists (w : World) (f : string) :
  passedOver w f <-> fileExists w f = (false, None).
Proof.
  unfold passedOver, fileExists.
  destruct (Stat w f) as [fi|e].
  - destruct (IsRegular fi); split; congruence.
  - destruct (IsNotExist e); split; congruence.
Qed.

Lemma passedOver_all (w : World) (l : list string) :
  Forall (passedOver w) l ->
  Forall (fun x => fileExists w x = (false, None)) l.
Proof.
  intros H. eapply Forall_impl; [|exact H].
  intros f. apply passedOver_fileExists.
Qed.

(** X10: the first usable candidate is the file.  When the candidates
    before [f] are missing or not regular files and [f] is a regular file,
    [findPasswordFile] settles on [f] without an error, whatever the
    candidates after [f] are: they are never examined. *)
Theorem first_usable_candidate
        (w : World) (p : Parser) (pre post : list string) (f : string)
        (fi : FileInfo) :
  files (addCandidates w p) = (pre ++ f :: post)%list ->
  Forall (passedOver w) pre ->
  Stat w f = Ok fi ->
  IsRegular fi = true ->
  findPasswordFile w p = (setOrapassFile f (addCandidates w p), None).
Proof.
  intros Hfiles Hpre Hstat Hreg. unfold findPasswordFile. rewrite Hfiles.
  apply findLoop_hit; [now apply passedOver_all|].
  unfold fileExists. now rewrite Hstat, Hreg.
Qed.

(** The explicit path is a directory: the file of the home directory is
    the one that is used. *)
Lemma first_usable_candidate_witness :
  findPasswordFile (homeWorld 384 testFile)
                   (mkParser "localhost" "1521" "emp" "scott" "" "/tmp/dir"
                             [] false)
  = (mkParser "localhost" "1521" "emp" "scott" "" "/home/scott/.orapass"
              ["/tmp/dir"; "/home/scott/.orapass"; "/home/scott/orapass"]
              false, None).
Proof.
  apply (first_usable_candidate
           (homeWorld 384 testFile)
           (mkParser "localhost" "1521" "emp" "scott" "" "/tmp/dir" [] false)
           ["/tmp/dir"] ["/home/scott/orapass"] "/home/scott/.orapass"
           (mkFileInfo true 384)).
  - reflexivity.
  - repeat constructor.
  - reflexivity.
  - reflexivity.
Defined.

(** X11: a candidate that cannot be examined ends the resolution.  When
    the candidates before [f] are missing or not regular files and
    [os.Stat] fails on [f] with an error other than "does not exist",
    [GetPasswd] returns that error, even when a later candidate is a usable
    file; the receiver keeps the file path it had. *)
Theorem stat_error_aborts
        (w : World) (p : Parser) (pre post : list string) (f : string)
        (e : error) :
  files (addCandidates w (applyDefaults w p)) = (pre ++ f :: post)%list ->
  Forall (passedOver w) pre ->
  Stat w f = Err e ->
  IsNotExist e = false ->
  snd (GetPasswd w p) = (zero, Some e)
  /\ OrapassFile (fst (GetPasswd w p)) = OrapassFile p.
Proof.
  intros Hfiles Hpre Hstat Hne.
  assert (Hfind : findPasswordFile w (applyDefaults w p)
                  = (addCandidates w (applyDefaults w p), Some e)).
  { unfold findPasswordFile. rewrite Hfiles.
    apply (findLoop_error w pre post f _ false e);
      [now apply passedOver_all|].
    unfold fileExists. now rewrite Hstat, Hne. }
  unfold GetPasswd. rewrite Hfind. split; [reflexivity|].
  cbn [fst]. now rewrite (proj2 (addCandidates_keeps w (applyDefaults w p))).
Qed.

Lemma stat_error_aborts_witness :
  snd (GetPasswd (deniedWorld testFile)
                 (mkParser "localhost" "1521" "emp" "scott" "" "/etc/orapass"
                           [] false))
  = (zero, Some (SysError false "stat /etc/orapass: permission denied"))
  /\ OrapassFile
       (fst (GetPasswd (deniedWorld testFile)
                       (mkParser "localhost" "1521" "emp" "scott" ""
                                 "/etc/orapass" [] false)))
     = "/etc/orapass".
Proof.
  apply (stat_error_aborts
           (deniedWorld testFile)
           (mkParser "localhost" "1521" "emp" "scott" "" "/etc/orapass"
                     [] false)
           [] ["/home/scott/.orapass"; "/home/scott/orapass"] "/etc/orapass"
           (SysError false "stat /etc/orapass: permission denied")).
  - reflexivity.
  - constructor.
  - reflexivity.
  - reflexivity.
Defined.

Lemma findLoop_files (w : World) (fs : list string) (p q : Parser)
      (e : option error) :
  findLoop w fs p = (q, e) -> files q = files p.
Proof.
  revert p q e. induction fs as [|f fs IH]; simpl; intros p q e H.
  - now inversion H.
  - destruct (fileExists w f) as [[|] [err|]];
      try (inversion H; subst; reflexivity).
    eauto.
Qed.

Lemma GetPasswd_receiver (w : World) (p : Parser) :
  fst (GetPasswd w p) = fst (findPasswordFile w (applyDefaults w p)).
Proof.
  unfold GetPasswd.
  destruct (findPasswordFile w (applyDefaults w p)) as [p1 [err|]];
    [reflexivity|].
  destruct (negb (GOOS w =? "windows")); [|reflexivity].
  destruct (checkFilePerms w p1) as [b [err|]]; reflexivity.
Qed.

(** X12: the candidate list.  [GetPasswd] leaves in the receiver the
    candidate list it had, followed by the non-empty ones among: the
    explicit path, the value of ORAPASSFILE, and the two default paths of
    the platform (under APPDATA\oracle on Windows, under HOME elsewhere),
    in that order.  The list only grows, and an empty path never enters
    it. *)
Theorem candidate_list (w : World) (p : Parser) :
  files (fst (GetPasswd w p))
  = (files p
     ++ filter (fun f => negb (f =? ""))
          (if GOOS w =? "windows" then
             [OrapassFile p; Getenv w "ORAPASSFILE";
              Join w [Getenv w "APPDATA"; "oracle"; ".orapass"];
              Join w [Getenv w "APPDATA"; "oracle"; "orapass"]]
           else
             [OrapassFile p; Getenv w "ORAPASSFILE";
              Join w [Getenv w "HOME"; ".orapass"];
              Join w [Getenv w "HOME"; "orapass"]]))%list
  /\ (Forall (fun f => f <> "") (files p) ->
      Forall (fun f => f <> "") (files (fst (GetPasswd w p)))).
Proof.
  assert (Hadd : forall f q,
             files (appendFileList f q)
             = (files q ++ filter (fun f => negb (f =? "")) [f])%list).
  { intros f q. unfold appendFileList. simpl.
    destruct (negb (f =? "")); simpl; [reflexivity | now rewrite app_nil_r]. }
  assert (Heq : files (fst (GetPasswd w p))
                = (files p
                   ++ filter (fun f => negb (f =? ""))
                        (if GOOS w =? "windows" then
                           [OrapassFile p; Getenv w "ORAPASSFILE";
                            Join w [Getenv w "APPDATA"; "oracle"; ".orapass"];
                            Join w [Getenv w "APPDATA"; "oracle"; "orapass"]]
                         else
                           [OrapassFile p; Getenv w "ORAPASSFILE";
                            Join w [Getenv w "HOME"; ".orapass"];
                            Join w [Getenv w "HOME"; "orapass"]]))%list).
  { rewrite GetPasswd_receiver. unfold findPasswordFile.
    destruct (findLoop w (files (addCandidates w (applyDefaults w p)))
                       (addCandidates w (applyDefaults w p)))
      as [q e] eqn:Hloop.
    cbn [fst]. rewrite (findLoop_files _ _ _ _ _ Hloop).
    unfold addCandidates.
    destruct (GOOS w =? "windows");
      rewrite !Hadd, <- !app_assoc;
      change (files (applyDefaults w p)) with (files p);
      change (OrapassFile (applyDefaults w p)) with (OrapassFile p);
      f_equal;
      change [OrapassFile p; Getenv w "ORAPASSFILE"]
        with ([OrapassFile p] ++ [Getenv w "ORAPASSFILE"])%list;
      cbn [filter app];
      repeat match goal with
        | |- context [negb (?x =? "")] => destruct (negb (x =? ""))
        end; reflexivity. }
  split; [exact Heq|].
  intros Hp. rewrite Heq. apply Forall_app. split; [assumption|].
  apply Forall_forall. intros f Hf. apply filter_In in Hf as [_ Hf].
  apply negb_true_iff in Hf. now apply String.eqb_neq.
Qed.

Lemma candidate_list_witness :
  Forall (fun f => f <> "")
         (files (fst (GetPasswd (homeWorld 384 testFile)
                                (query "localhost" "1521" "emp" "scott")))).
Proof.
  apply (proj2 (candidate_list (homeWorld 384 testFile)
                               (query "localhost" "1521" "emp" "scott"))).
  constructor.
Defined.

(** The reading breaks off after the only line: the query that line
    answers succeeds, the query no line answers gets the read error. *)
Example read_error_examples :
  snd (GetPasswd
         (brokenWorld
            (Ok (mkFileData
                   (terminated nl ["localhost:1521:emp:scott:tiger"])
                   (Some (SysError false "read: input/output error")))))
         (query "localhost" "1521" "emp" "scott"))
  = (mkParser "localhost" "1521" "emp" "scott" "tiger" "" [] false, None)
  /\ snd (GetPasswd
            (brokenWorld
               (Ok (mkFileData
                      (terminated nl ["localhost:1521:emp:scott:tiger"])
                      (Some (SysError false "read: input/output error")))))
            (query "localhost" "1521" "emp" "walter"))
     = (zero, Some (SysError false "read: input/output error")).
Proof. split; reflexivity. Qed.

Lemma pickParm_case (callingParm fileParm : string) :
  chkForMatch callingParm fileParm = true ->
  ToUpper (pickParm callingParm fileParm) = ToUpper callingParm.
Proof.
  intros H. rewrite ParserProperties.pickParm_spec.
  destruct (fileParm =? "*") eqn:Hs; simpl; [reflexivity|].
  destruct (fileParm =? ""); [reflexivity|].
  apply Parser_chkForMatch_spec in H as [H|[H _]]; [now symmetry|].
  apply String.eqb_neq in Hs. contradiction.
Qed.

(** X16: the answer fits the question.  In every successful resolution the
    returned host, port and database equal, letter case aside, the values
    searched with (the query after default substitution); the returned
    username equals the searched one, letter case aside, or is the [*] of
    the line; and the record holds nothing else: no file path, no
    candidate list, no debug flag. *)
Theorem answer_fits_query (w : World) (p r : Parser) :
  snd (GetPasswd w p) = (r, None) ->
  ToUpper (Host r) = ToUpper (Host (applyDefaults w p))
  /\ ToUpper (Port r) = ToUpper (Port (applyDefaults w p))
  /\ ToUpper (DbName r) = ToUpper (DbName (applyDefaults w p))
  /\ (ToUpper (Username r) = ToUpper (Username (applyDefaults w p))
      \/ (Username r = "*" /\ Username (applyDefaults w p) <> ""))
  /\ OrapassFile r = "" /\ files r = [] /\ Debug r = false.
Proof.
  intros H. apply GetPasswd_success in H as (p1 & Hfind & Hsearch).
  apply findPasswordFile_keeps in Hfind as (Hh & Hp & Hd & Hu).
  apply (searchFile_result w p1 r None) in Hsearch
    as (file & line & _ & _ & Hline).
  apply tryLine_Some in Hline
    as (_ & t0 & t1 & t2 & t3 & t4 & _ & M0 & M1 & M2 & M3 & ->).
  rewrite <- Hh, <- Hp, <- Hd, <- Hu. cbn [Host Port DbName Username
    OrapassFile files Debug].
  repeat split; try (now apply pickParm_case).
  apply Parser_chkForMatch_spec in M3 as [M3|M3]; [left; now symmetry|].
  right. exact M3.
Qed.

Lemma answer_fits_query_witness :
  snd (GetPasswd (homeWorld 384 ("LocalHost:1521:*:*:lion" ++ nl))
                 (query "localhost" "1521" "nosuchdb" "scott"))
  = (mkParser "LocalHost" "1521" "nosuchdb" "*" "lion" "" [] false, None)
  /\ (ToUpper "LocalHost" = ToUpper "localhost"
      /\ ToUpper "1521" = ToUpper "1521"
      /\ ToUpper "nosuchdb" = ToUpper "nosuchdb"
      /\ (ToUpper "*" = ToUpper "scott" \/ ("*" = "*" /\ "scott" <> ""))
      /\ "" = "" /\ @nil string = [] /\ false = false).
Proof.
  split; [reflexivity|].
  exact (answer_fits_query
           (homeWorld 384 ("LocalHost:1521:*:*:lion" ++ nl))
           (query "localhost" "1521" "nosuchdb" "scott")
           (mkParser "LocalHost" "1521" "nosuchdb" "*" "lion" "" [] false)
           eq_refl).
Defined.

Lemma findLoop_firstHit (w : World) (fs : list string) (p : Parser) :
  findLoop w fs p
  = match firstHit w fs with
    | None => (p, None)
    | Some (Ok f) => (setOrapassFile f p, None)
    | Some (Err e) => (p, Some e)
    end.
Proof.
  induction fs as [|f fs IH]; simpl; [reflexivity|].
  unfold fileExists. destruct (Stat w f) as [fi|e].
  - destruct (IsRegular fi); [reflexivity | exact IH].
  - destruct (IsNotExist e); [exact IH | reflexivity].
Qed.

Lemma firstHit_app (w : World) (l1 l2 : list string) :
  firstHit w (l1 ++ l2)
  = match firstHit w l1 with
    | None => firstHit w l2
    | Some hit => Some hit
    end.
Proof.
  induction l1 as [|f l1 IH]; simpl; [reflexivity|].
  destruct (Stat w f) as [fi|e].
  - destruct (IsRegular fi); [reflexivity | exact IH].
  - destruct (IsNotExist e); [exact IH | reflexivity].
Qed.

Lemma addCandidates_files (w : World) (q : Parser) :
  files (addCandidates w q)
  = (files q ++ newCandidates w (OrapassFile q))%list.
Proof.
  assert (Hadd : forall f q,
             files (appendFileList f q)
             = (files q ++ filter (fun f => negb (f =? "")) [f])%list).
  { intros f q0. unfold appendFileList. simpl.
    destruct (negb (f =? "")); simpl; [reflexivity | now rewrite app_nil_r]. }
  unfold addCandidates, newCandidates.
  destruct (GOOS w =? "windows");
    rewrite !Hadd, <- !app_assoc; f_equal;
    cbn [filter app];
    repeat match goal with
      | |- context [negb (?x =? "")] => destruct (negb (x =? ""))
      end; reflexivity.
Qed.

Lemma tryLine_same (p q : Parser) (line : string) :
  sameQuery p q -> tryLine q line = tryLine p line.
Proof.
  intros (Hh & Hp & Hd & Hu). unfold tryLine. now rewrite Hh, Hp, Hd, Hu.
Qed.

Lemma scanLoop_same (p q : Parser) (lines : list string) :
  sameQuery p q -> scanLoop q lines = scanLoop p lines.
Proof.
  intros Hs. induction lines as [|l lines IH]; simpl; [reflexivity|].
  now rewrite (tryLine_same p q l Hs), IH.
Qed.

Lemma afterDiscovery_same (w : World) (p q : Parser) :
  sameQuery p q -> OrapassFile q = OrapassFile p ->
  afterDiscovery w q = afterDiscovery w p.
Proof.
  intros Hs Hf.
  assert (Hsearch : searchFile w q = searchFile w p).
  { unfold searchFile. rewrite Hf.
    destruct (Open w (OrapassFile p)) as [file|e]; [|reflexivity].
    destruct (scanLines file) as [lines se].
    now rewrite (scanLoop_same p q lines Hs). }
  unfold afterDiscovery, checkFilePerms. now rewrite Hf, Hsearch.
Qed.

Lemma GetPasswd_outcome (w : World) (p : Parser) :
  snd (GetPasswd w p)
  = match firstHit w (files (addCandidates w (applyDefaults w p))) with
    | None => afterDiscovery w (addCandidates w (applyDefaults w p))
    | Some (Ok f) =>
        afterDiscovery w
          (setOrapassFile f (addCandidates w (applyDefaults w p)))
    | Some (Err e) => (zero, Some e)
    end.
Proof.
  unfold GetPasswd, findPasswordFile. rewrite findLoop_firstHit.
  destruct (firstHit w (files (addCandidates w (applyDefaults w p))))
    as [[f|e]|]; cbn [snd]; unfold afterDiscovery;
    try reflexivity;
    destruct (negb (GOOS w =? "windows")); try reflexivity;
    match goal with
    | |- context [checkFilePerms w ?x] =>
        destruct (checkFilePerms w x) as [b [err|]]; reflexivity
    end.
Qed.

(** X17: asking again gives the same answer.  [GetPasswd] updates its
    receiver (defaults, candidate list, file path); called once more on
    the receiver it has left, in the same state of the system, it returns
    the same record and the same error as the first time. *)
Theorem GetPasswd_again (w : World) (p : Parser) :
  snd (GetPasswd w (fst (GetPasswd w p))) = snd (GetPasswd w p).
Proof.
  set (p0 := applyDefaults w p).
  set (p' := fst (GetPasswd w p)).
  assert (Hp' : p' = fst (findPasswordFile w p0)) by apply GetPasswd_receiver.
  unfold findPasswordFile in Hp'. rewrite findLoop_firstHit in Hp'.
  assert (Hq0 : sameQuery p0 (addCandidates w p0)
                /\ OrapassFile (addCandidates w p0) = OrapassFile p0)
    by apply addCandidates_keeps.
  (* the receiver of the second call, after its defaults *)
  assert (Hsame' : forall q, sameQuery p0 q -> sameQuery p0 (applyDefaults w q)).
  { intros q (Hh & Hp & Hd & Hu).
    assert (E : applyDefaults w q
                = mkParser (Host p0) (Port p0) (DbName p0) (Username p0)
                           (Password q) (OrapassFile q) (files q) (Debug q)).
    { rewrite (ParserProperties.applyDefaults_fields w q), Hh, Hp, Hd, Hu.
      unfold p0. rewrite (ParserProperties.applyDefaults_fields w p).
      cbn [Host Port DbName Username].
      now rewrite !ParserProperties.coalesce_again. }
    rewrite E. repeat split. }
  assert (Hrest : forall q f,
             sameQuery p0 q ->
             sameQuery p0 (setOrapassFile f (addCandidates w (applyDefaults w q)))
             /\ sameQuery p0 (addCandidates w (applyDefaults w q))).
  { intros q f Hq. specialize (Hsame' q Hq).
    destruct (addCandidates_keeps w (applyDefaults w q)) as [Hk _].
    pose proof (sameQuery_trans _ _ _ Hsame' Hk) as Hall. split; exact Hall. }
  rewrite (GetPasswd_outcome w p'), (GetPasswd_outcome w p). fold p0.
  rewrite (addCandidates_files w (applyDefaults w p')).
  change (files (applyDefaults w p')) with (files p').
  change (OrapassFile (applyDefaults w p')) with (OrapassFile p').
  rewrite firstHit_app.
  destruct (firstHit w (files (addCandidates w p0))) as [[f|e]|] eqn:Hhit.
  - (* a file was found: it is found again, first *)
    assert (Hfiles : files p' = files (addCandidates w p0)) by now rewrite Hp'.
    rewrite Hfiles, Hhit.
    assert (Hsq : sameQuery p0 p').
    { rewrite Hp'. cbn [fst]. exact (proj1 Hq0). }
    destruct (Hrest p' f Hsq) as [H1 _].
    destruct H1 as (A1 & A2 & A3 & A4), (proj1 Hq0) as (B1 & B2 & B3 & B4).
    apply afterDiscovery_same; [|reflexivity].
    repeat split; cbn [setOrapassFile Host Port DbName Username] in *;
      congruence.
  - (* the same error of stat *)
    assert (Hfiles : files p' = files (addCandidates w p0)) by now rewrite Hp'.
    now rewrite Hfiles, Hhit.
  - (* nothing was found: nothing is found *)
    assert (Hp'' : p' = addCandidates w p0) by now rewrite Hp'.
    rewrite Hp'', Hhit, (proj2 Hq0).
    change (OrapassFile p0) with (OrapassFile p).
    assert (Hnew : firstHit w (newCandidates w (OrapassFile p)) = None).
    { rewrite (addCandidates_files w p0), firstHit_app in Hhit.
      change (OrapassFile p0) with (OrapassFile p) in Hhit.
      destruct (firstHit w (files p0)); [discriminate | exact Hhit]. }
    rewrite Hnew.
    destruct (Hrest (addCandidates w p0) "" (proj1 Hq0)) as [_ H1].
    destruct (addCandidates_keeps w (applyDefaults w (addCandidates w p0)))
      as [_ Hf1].
    apply afterDiscovery_same.
    + destruct H1 as (A1 & A2 & A3 & A4), (proj1 Hq0) as (B1 & B2 & B3 & B4).
      repeat split; congruence.
    + rewrite Hf1.
      change (OrapassFile (applyDefaults w (addCandidates w p0)))
        with (OrapassFile (addCandidates w p0)).
      reflexivity.
Qed.

Lemma freeOf_app (sep : ascii) (a b : string) :
  freeOf sep (a ++ b) = freeOf sep a && freeOf sep b.
Proof.
  induction a as [|c a IH]; simpl; [reflexivity|].
  now rewrite IH, andb_assoc.
Qed.

Lemma dropCR_free (sep : ascii) (s : string) :
  freeOf sep s = true -> freeOf sep (dropCR s) = true.
Proof.
  induction s as [|c s IH]; [reflexivity|].
  intros H. simpl in H. apply andb_true_iff in H as [Hc Hs].
  destruct s as [|d s].
  - simpl. destruct (Ascii.eqb c "013"); simpl; [reflexivity|].
    now rewrite Hc.
  - change (dropCR (String c (String d s)))
      with (String c (dropCR (String d s))).
    simpl. rewrite Hc. exact (IH Hs).
Qed.

(** No token of the scanner holds a newline. *)
Lemma scanFrom_tokens_free (data : string) :
  forall (cur : string) (rerr : option error),
  freeOf "010" cur = true ->
  Forall (fun t => freeOf "010" t = true) (fst (scanFrom cur data rerr)).
Proof.
  induction data as [|c data IH]; intros cur rerr Hcur; simpl.
  - destruct (cur =? ""); [constructor|].
    destruct (N.of_nat (String.length cur) <? MaxScanTokenSize)%N;
      [|constructor].
    constructor; [now apply dropCR_free | constructor].
  - destruct (Ascii.eqb c "010") eqn:Hc.
    + destruct (N.of_nat (String.length cur) <? MaxScanTokenSize)%N;
        [|constructor].
      specialize (IH "" rerr eq_refl).
      destruct (scanFrom "" data rerr) as [toks e]. simpl in *.
      constructor; [now apply dropCR_free | assumption].
    + apply IH. rewrite freeOf_app, Hcur. simpl. now rewrite Hc.
Qed.

Lemma GetPasswd_fields_free (w : World) (p r : Parser) :
  snd (GetPasswd w p) = (r, None) ->
  freeOf "010" (Username r) = true /\ freeOf "010" (Password r) = true.
Proof.
  intros H. apply GetPasswd_success in H as (p1 & _ & Hsearch).
  apply (searchFile_result w p1 r None) in Hsearch
    as (file & line & _ & Hin & Hline).
  assert (Hfree : freeOf "010" line = true).
  { pose proof (scanFrom_tokens_free (bytes file) "" (readErr file) eq_refl)
      as Hall.
    rewrite Forall_forall in Hall. now apply Hall. }
  apply tryLine_Some in Hline
    as (_ & t0 & t1 & t2 & t3 & t4 & Hs & _ & _ & _ & _ & ->).
  apply SplitN_five in Hs as (-> & _).
  do 3 (rewrite freeOf_app in Hfree;
        apply andb_true_iff in Hfree as [_ Hfree]; simpl in Hfree).
  rewrite freeOf_app in Hfree.
  apply andb_true_iff in Hfree as [Hu Hpw]. simpl in Hpw.
  cbn [Username Password]. split; assumption.
Qed.

(** X18: the password is one line.  In every successful resolution the
    returned username and password hold no newline byte, whatever bytes the
    file holds. *)
Theorem password_is_one_line (w : World) (p r : Parser) :
  snd (GetPasswd w p) = (r, None) ->
  freeOf "010" (Username r) = true /\ freeOf "010" (Password r) = true.
Proof. apply GetPasswd_fields_free. Qed.

Lemma password_is_one_line_witness :
  snd (GetPasswd (homeWorld 384 colonFile) (query "host" "1521" "db" "user"))
  = (mkParser "host" "1521" "db" "user" "pa:ss:word" "" [] false, None)
  /\ (freeOf "010" "user" = true /\ freeOf "010" "pa:ss:word" = true).
Proof.
  split; [reflexivity|].
  exact (password_is_one_line
           (homeWorld 384 colonFile) (query "host" "1521" "db" "user")
           (mkParser "host" "1521" "db" "user" "pa:ss:word" "" [] false)
           eq_refl).
Defined.

End ParserMore.

(** ** Properties of the command *)

Module CmdProperties.
Import OrapassCmd.

(** X19: what a run of the command leaves.  Either the resolution
    succeeded: the exit status is 0, nothing is written to the standard
    error stream by [main], and the standard output is the password
    followed by a newline, one line exactly.  Or the resolution failed:
    the exit status is 1, the standard output is empty, and [main] writes
    the text of the error and a newline to the standard error stream,
    unless [-q] is given, in which case it writes nothing. *)
Theorem main_outcome (w : World) (fl : Flags) :
  (exists r,
      snd (OrapassParser.GetPasswd w
             (OrapassParser.mkParser (flagH fl) (flagP fl) (flagD fl)
                (flagU fl) "" (flagF fl) [] (flagDebug fl)))
      = (r, None)
      /\ exitStatus (main w fl) = 0%N
      /\ stdout (main w fl) = OrapassParser.Password r ++ nl
      /\ freeOf "010" (OrapassParser.Password r) = true
      /\ stderr (main w fl) = "")
  \/ (exists r e,
        snd (OrapassParser.GetPasswd w
               (OrapassParser.mkParser (flagH fl) (flagP fl) (flagD fl)
                  (flagU fl) "" (flagF fl) [] (flagDebug fl)))
        = (r, Some e)
        /\ exitStatus (main w fl) = 1%N
        /\ stdout (main w fl) = ""
        /\ stderr (main w fl) = if flagQ fl then "" else Error e ++ nl).
Proof.
  unfold main.
  destruct (snd (OrapassParser.GetPasswd w
                   (OrapassParser.mkParser (flagH fl) (flagP fl) (flagD fl)
                      (flagU fl) "" (flagF fl) [] (flagDebug fl))))
    as [r [e|]] eqn:Hres.
  - right. exists r, e. destruct (flagQ fl); repeat split.
  - left. exists r. repeat split.
    exact (proj2 (ParserMore.GetPasswd_fields_free w _ r Hres)).
Qed.

(** The command on the test file: the password for scott, and the
    complaint about a world-readable file. *)
Example main_examples :
  main (homeWorld 384 testFile)
       (mkFlags "scott" "localhost" "1521" "emp" "" false false)
  = mkOutcome ("tiger" ++ nl) "" 0
  /\ main (homeWorld 420 testFile)
          (mkFlags "scott" "localhost" "1521" "emp" "" false false)
     = mkOutcome ""
         ("Permissions on file are incorrect. Should be 600, got 644" ++ nl) 1
  /\ main (homeWorld 420 testFile)
          (mkFlags "scott" "localhost" "1521" "emp" "" false true)
     = mkOutcome "" "" 1
  /\ main (homeWorld 384 testFile) (mkFlags "" "" "" "emp" "" false false)
     = mkOutcome ("tiger" ++ nl) "" 0.
Proof. repeat split. Qed.

End CmdProperties.

(** ** Further properties of the [PwRec] generation *)

Module PwRecMore.
Import OrapassPwRec PwRecFacts.

(** X21: in the [PwRec] generation the lines examined are the pieces
    between the newlines of the file, as they are: when the content is a
    list of newline-free pieces joined by newlines, [searchFile] runs its
    loop over exactly those pieces.  Nothing is removed from a piece, so a
    line of a DOS file keeps its carriage return, which ends up in the
    password. *)
Theorem pwrec_lines_as_they_are
        (w : World) (p : PwRec) (pieces : list string) :
  ReadFile w (OrapassFile p) = Ok (String.concat nl pieces) ->
  pieces <> [] ->
  Forall (fun piece => freeOf "010" piece = true) pieces ->
  searchFile w p
  = match scanLoop p pieces with
    | Some found => (found, None)
    | None => (zero, Some errNoEntry)
    end.
Proof.
  intros Hread Hne Hfree. unfold searchFile. rewrite Hread.
  change nl with (String "010" "") in *.
  now rewrite (Split_concat "010" pieces Hne Hfree).
Qed.

(** A DOS file: the password keeps the carriage return. *)
Lemma pwrec_lines_as_they_are_witness :
  searchFile
    (homeWorld 384 ("localhost:1521:emp:scott:tiger" ++ crlf))
    (mkPwRec "localhost" "1521" "emp" "scott" "" "/home/scott/.orapass")
  = match scanLoop
            (mkPwRec "localhost" "1521" "emp" "scott" ""
                     "/home/scott/.orapass")
            ["localhost:1521:emp:scott:tiger" ++ String "013" ""; ""] with
    | Some found => (found, None)
    | None => (zero, Some errNoEntry)
    end.
Proof.
  apply (pwrec_lines_as_they_are
           (homeWorld 384 ("localhost:1521:emp:scott:tiger" ++ crlf))
           (mkPwRec "localhost" "1521" "emp" "scott" "" "/home/scott/.orapass")
           ["localhost:1521:emp:scott:tiger" ++ String "013" ""; ""]).
  - reflexivity.
  - discriminate.
  - repeat constructor.
Defined.

Example pwrec_keeps_carriage_return :
  searchFile
    (homeWorld 384 ("localhost:1521:emp:scott:tiger" ++ crlf))
    (mkPwRec "localhost" "1521" "emp" "scott" "" "/home/scott/.orapass")
  = (mkPwRec "localhost" "1521" "emp" "scott" ("tiger" ++ String "013" "") "",
     None)
  /\ OrapassParser.searchFile
       (homeWorld 384 ("localhost:1521:emp:scott:tiger" ++ crlf))
       (OrapassParser.mkParser "localhost" "1521" "emp" "scott" ""
                               "/home/scott/.orapass" [] false)
     = (OrapassParser.mkParser "localhost" "1521" "emp" "scott" "tiger" ""
                               [] false, None).
Proof. split; reflexivity. Qed.

Lemma pwrec_findLoop_hit (w : World) (pre post : list string) (f : string)
      (p : PwRec) :
  Forall (fun x => fileExists w x = (false, None)) pre ->
  fileExists w f = (true, None) ->
  findLoop w (pre ++ f :: post) p = (setOrapassFile f p, None).
Proof.
  induction 1 as [|x pre Hx _ IH]; simpl; intros Hf.
  - now rewrite Hf.
  - rewrite Hx. now apply IH.
Qed.

(** X22: discovery in the [PwRec] generation.  The candidates are the
    non-empty ones among the explicit path and the value of ORAPASSFILE,
    and then the two default paths of the platform, which are tried
    whatever they are.  When the candidates before [f] are missing or not
    regular files and [f] is a regular file, [findPasswordFile] settles on
    [f] without an error; the candidates after [f] are never examined. *)
Theorem pwrec_first_usable_candidate
        (w : World) (p : PwRec) (pre post : list string) (f : string)
        (fi : FileInfo) :
  (filter (fun x => negb (x =? "")) [OrapassFile p; Getenv w "ORAPASSFILE"]
   ++ (if GOOS w =? "windows" then
         [Join w [Getenv w "APPDATA"; "oracle"; ".orapass"];
          Join w [Getenv w "APPDATA"; "oracle"; "orapass"]]
       else
         [Join w [Getenv w "HOME"; ".orapass"];
          Join w [Getenv w "HOME"; "orapass"]]))%list
  = (pre ++ f :: post)%list ->
  Forall (passedOver w) pre ->
  Stat w f = Ok fi ->
  IsRegular fi = true ->
  findPasswordFile w p = (setOrapassFile f p, None).
Proof.
  intros Hlist Hpre Hstat Hreg.
  assert (Hc : candidates w p = (pre ++ f :: post)%list).
  { rewrite <- Hlist. unfold candidates. cbn [filter app].
    destruct (negb (OrapassFile p =? "")),
             (negb (Getenv w "ORAPASSFILE" =? "")),
             (GOOS w =? "windows"); reflexivity. }
  unfold findPasswordFile. rewrite Hc.
  apply pwrec_findLoop_hit.
  - eapply Forall_impl; [|exact Hpre]. intros x Hx.
    unfold passedOver in Hx. unfold fileExists.
    destruct (Stat w x) as [fi0|e0]; now rewrite Hx.
  - unfold fileExists. now rewrite Hstat, Hreg.
Qed.

Lemma pwrec_first_usable_candidate_witness :
  findPasswordFile (homeWorld 384 testFile)
                   (mkPwRec "localhost" "1521" "emp" "scott" "" "/tmp/dir")
  = (mkPwRec "localhost" "1521" "emp" "scott" "" "/home/scott/.orapass",
     None).
Proof.
  apply (pwrec_first_usable_candidate
           (homeWorld 384 testFile)
           (mkPwRec "localhost" "1521" "emp" "scott" "" "/tmp/dir")
           ["/tmp/dir"] ["/home/scott/orapass"] "/home/scott/.orapass"
           (mkFileInfo true 384)).
  - reflexivity.
  - repeat constructor.
  - reflexivity.
  - reflexivity.
Defined.

End PwRecMore.

(** ** Properties across the two generations *)

Lemma chkForMatch_agree (callingParm fileParm : string) :
  callingParm <> "" ->
  OrapassPwRec.chkForMatch callingParm fileParm
  = OrapassParser.chkForMatch callingParm fileParm.
Proof.
  intros Hne. apply String.eqb_neq in Hne.
  unfold OrapassPwRec.chkForMatch, OrapassParser.chkForMatch.
  rewrite Hne. simpl. now rewrite andb_true_r.
Qed.

(** X23: the two generations agree on a query without empty values.  When
    host, port, database and username of the query are all non-empty, the
    loop body of [PwRec.searchFile] and the loop body of
    [Parser.searchFile] select the same lines and compose the same five
    fields; they differ only for an empty value, which a [*] of the file
    matches in the [PwRec] generation alone. *)
Theorem generations_agree (h po d u line : string) :
  h <> "" -> po <> "" -> d <> "" -> u <> "" ->
  option_map fieldsOfPwRec (OrapassPwRec.tryLine (queryRec h po d u) line)
  = option_map fieldsOfParser (OrapassParser.tryLine (query h po d u) line).
Proof.
  intros Hh Hp Hd Hu.
  unfold OrapassPwRec.tryLine, OrapassParser.tryLine, queryRec, query.
  cbn [OrapassPwRec.Host OrapassPwRec.Port OrapassPwRec.DbName
       OrapassPwRec.Username OrapassParser.Host OrapassParser.Port
       OrapassParser.DbName OrapassParser.Username].
  destruct (commentRe line); [reflexivity|].
  destruct (SplitN line ":" 5) as [|t0 [|t1 [|t2 [|t3 [|t4 rest]]]]];
    try reflexivity.
  rewrite (chkForMatch_agree h t0 Hh), (chkForMatch_agree po t1 Hp),
          (chkForMatch_agree d t2 Hd), (chkForMatch_agree u t3 Hu).
  destruct (OrapassParser.chkForMatch h t0 && OrapassParser.chkForMatch po t1
            && OrapassParser.chkForMatch d t2
            && OrapassParser.chkForMatch u t3); reflexivity.
Qed.

Lemma generations_agree_witness :
  option_map fieldsOfPwRec
    (OrapassPwRec.tryLine (queryRec "localhost" "1521" "nosuchdb" "scott")
                          "localhost:1521:*:scott:lion")
  = option_map fieldsOfParser
      (OrapassParser.tryLine (query "localhost" "1521" "nosuchdb" "scott")
                             "localhost:1521:*:scott:lion").
Proof.
  apply (generations_agree "localhost" "1521" "nosuchdb" "scott"
                           "localhost:1521:*:scott:lion");
    discriminate.
Defined.

(** With an empty port the two generations part: the line with the
    wildcard port answers in the [PwRec] generation only. *)
Example generations_differ_on_empty_value :
  OrapassPwRec.tryLine (queryRec "localhost" "" "emp" "scott")
                       "localhost:*:emp:scott:cat"
  = Some (OrapassPwRec.mkPwRec "localhost" "" "emp" "scott" "cat" "")
  /\ OrapassParser.tryLine (query "localhost" "" "emp" "scott")
                           "localhost:*:emp:scott:cat"
     = None.
Proof. split; reflexivity. Qed.

(** ** The scan on a text file *)

Module ParserText.
Import OrapassParser ParserFacts.

(** X6: the lines of a text file.  When the file is made of lines that hold
    no newline, do not end in a carriage return and are short enough for
    the scanner, each ended by a newline or each ended by carriage return
    and newline (a DOS file), [searchFile] runs its loop over exactly those
    lines: it returns the record of the first selected line, and otherwise
    the read error of the file if there is one, and the not-found error if
    there is none. *)
Theorem searchFile_reads_lines
        (w : World) (p : Parser) (lines : list string)
        (rerr : option error) :
  Forall (fun line => scannable (line ++ String "013" "")) lines ->
  (Open w (OrapassFile p) = Ok (mkFileData (terminated nl lines) rerr)
   /\ Forall (fun line => dropCR line = line) lines)
  \/ Open w (OrapassFile p) = Ok (mkFileData (terminated crlf lines) rerr) ->
  searchFile w p
  = match scanLoop p lines with
    | Some found => (found, None)
    | None => (zero, Some match rerr with
                          | Some e => e
                          | None => errNoEntry
                          end)
    end.
Proof.
  intros Hall Hopen.
  assert (Hscan : exists file,
             Open w (OrapassFile p) = Ok file
             /\ scanLines file = (lines, rerr)).
  { destruct Hopen as [[Hopen Hcr]|Hopen]; eexists; (split; [exact Hopen|]).
    - assert (Hs : Forall scannable lines).
      { eapply Forall_impl; [|exact Hall]. apply scannable_without_CR. }
      rewrite (scanLines_terminated _ rerr Hs). f_equal.
      clear - Hcr. induction Hcr as [|l ls Hl _ IH]; simpl;
        [reflexivity|]. now rewrite Hl, IH.
    - rewrite terminated_crlf.
      rewrite (scanLines_terminated _ rerr (proj2 (Forall_map _ _ _) Hall)).
      f_equal. rewrite map_map. clear.
      induction lines as [|l ls IH]; simpl; [reflexivity|].
      now rewrite dropCR_append_CR, IH. }
  destruct Hscan as (file & Hfile & Hlines).
  unfold searchFile. rewrite Hfile, Hlines.
  destruct (scanLoop p lines); [reflexivity|]. now destruct rerr.
Qed.

(** The test file written with DOS line endings. *)
Lemma searchFile_reads_lines_witness :
  searchFile
    (homeWorld 384
       (terminated crlf ["localhost:1521:emp:scott:tiger";
                         "localhost:1521:*:scott:lion"]))
    (mkParser "localhost" "1521" "nosuchdb" "scott" ""
              "/home/scott/.orapass" [] false)
  = match scanLoop (mkParser "localhost" "1521" "nosuchdb" "scott" ""
                             "/home/scott/.orapass" [] false)
                   ["localhost:1521:emp:scott:tiger";
                    "localhost:1521:*:scott:lion"] with
    | Some found => (found, None)
    | None => (zero, Some errNoEntry)
    end.
Proof.
  apply (searchFile_reads_lines
           (homeWorld 384
              (terminated crlf ["localhost:1521:emp:scott:tiger";
                                "localhost:1521:*:scott:lion"]))
           (mkParser "localhost" "1521" "nosuchdb" "scott" ""
                     "/home/scott/.orapass" [] false)
           ["localhost:1521:emp:scott:tiger"; "localhost:1521:*:scott:lion"]
           None).
  - repeat constructor.
  - right. reflexivity.
Defined.

End ParserText.

(** ** The receiver in the [PwRec] generation *)

Module PwRecReceiver.
Import OrapassPwRec PwRecFacts.

(** X24: the [PwRec] generation substitutes no defaults.  [GetPasswd] leaves
    host, port, database, username and password of its receiver as they
    were, on every path; only the file path may change, and then to a
    candidate that is a regular file. *)
Theorem pwrec_receiver_kept (w : World) (p : PwRec) :
  Host (fst (GetPasswd w p)) = Host p
  /\ Port (fst (GetPasswd w p)) = Port p
  /\ DbName (fst (GetPasswd w p)) = DbName p
  /\ Username (fst (GetPasswd w p)) = Username p
  /\ Password (fst (GetPasswd w p)) = Password p
  /\ (OrapassFile (fst (GetPasswd w p)) = OrapassFile p
      \/ (In (OrapassFile (fst (GetPasswd w p))) (candidates w p)
          /\ exists fi, Stat w (OrapassFile (fst (GetPasswd w p))) = Ok fi
                        /\ IsRegular fi = true)).
Proof.
  assert (Hloop : forall fs q q' e,
             findLoop w fs q = (q', e) ->
             Host q' = Host q /\ Port q' = Port q /\ DbName q' = DbName q
             /\ Username q' = Username q /\ Password q' = Password q
             /\ (OrapassFile q' = OrapassFile q
                 \/ (In (OrapassFile q') fs
                     /\ exists fi, Stat w (OrapassFile q') = Ok fi
                                   /\ IsRegular fi = true))).
  { induction fs as [|f fs IH]; simpl; intros q q' e H.
    - inversion H; subst. repeat split. now left.
    - unfold fileExists in H. destruct (Stat w f) as [fi|err] eqn:Hst.
      + destruct (IsRegular fi) eqn:Hreg.
        * inversion H; subst. repeat split. right. simpl.
          split; [now left | exists fi; now rewrite Hst].
        * destruct (IH q q' e H) as (A & B & C & D & E & [F|[F G]]);
            repeat split; auto.
      + destruct (IsNotExist err).
        * destruct (IH q q' e H) as (A & B & C & D & E & [F|[F G]]);
            repeat split; auto.
        * inversion H; subst. repeat split. now left. }
  assert (Hrecv : fst (GetPasswd w p) = fst (findPasswordFile w p)).
  { unfold GetPasswd.
    destruct (findPasswordFile w p) as [p1 [err|]]; [reflexivity|].
    destruct (negb (GOOS w =? "windows")); [|reflexivity].
    destruct (checkFilePerms w p1) as [b [err|]]; reflexivity. }
  rewrite Hrecv. unfold findPasswordFile.
  destruct (findLoop w (candidates w p) p) as [q' e] eqn:H.
  exact (Hloop _ _ _ _ H).
Qed.

End PwRecReceiver.

(** ** First match wins *)

Module FirstMatch.
Import OrapassParser ParserFacts.

Lemma searchFile_long_line
      (w : World) (p : Parser) (raws : list string)
      (long tail : string) (rerr : option error) :
  Open w (OrapassFile p)
  = Ok (mkFileData (terminated nl raws ++ long ++ tail) rerr) ->
  Forall scannable raws ->
  freeOf "010" long = true ->
  (MaxScanTokenSize <= N.of_nat (String.length long))%N ->
  tail = "" \/ (exists rest, tail = nl ++ rest) ->
  (forall x, In x (map dropCR raws) -> tryLine p x = None) ->
  searchFile w p = (zero, Some ErrTooLong).
Proof.
  intros Hopen Hraws Hfree Hlen Htail Hnone.
  unfold searchFile. rewrite Hopen. unfold scanLines. cbn [bytes readErr].
  rewrite (scanFrom_terminated raws (long ++ tail) rerr Hraws).
  rewrite (scanFrom_too_long long tail rerr Hfree Hlen Htail).
  cbn [fst snd]. rewrite app_nil_r, (scanLoop_none p _ Hnone). reflexivity.
Qed.

(** C4, as stated, fails on the [Parser] generation: in [longLineFile] two
    lines are not skipped and pass the four field matches for the query,
    yet the line of 64 KiB before them ends the scan, and [GetPasswd]
    returns [bufio.ErrTooLong] with the zero record instead of the record
    of the earliest matching line. *)
Lemma long_line_hides_matching_lines :
  tryLine (query "localhost" "1521" "emp" "scott")
          "localhost:1521:emp:scott:tiger"
  = Some (mkParser "localhost" "1521" "emp" "scott" "tiger" "" [] false)
  /\ tryLine (query "localhost" "1521" "emp" "scott")
             "localhost:1521:*:scott:lion"
     = Some (mkParser "localhost" "1521" "emp" "scott" "lion" "" [] false)
  /\ snd (GetPasswd (homeWorld 384 longLineFile)
                    (query "localhost" "1521" "emp" "scott"))
     = (zero, Some ErrTooLong).
Proof.
  split; [reflexivity|]. split; [reflexivity|].
  rewrite (GetPasswd_scan
             (homeWorld 384 longLineFile)
             (query "localhost" "1521" "emp" "scott")
             (mkParser "localhost" "1521" "emp" "scott" ""
                       "/home/scott/.orapass"
                       ["/home/scott/.orapass"; "/home/scott/orapass"] false)).
  - cbn [snd].
    apply (searchFile_long_line
             (homeWorld 384 longLineFile) _ ["# orapass"] longLine
             (nl ++ terminated nl ["localhost:1521:emp:scott:tiger";
                                   "localhost:1521:*:scott:lion"]) None).
    + reflexivity.
    + repeat constructor.
    + vm_compute. reflexivity.
    + vm_compute. discriminate.
    + right. eexists. reflexivity.
    + intros x [<-|[]]. reflexivity.
  - reflexivity.
  - right. exists (mkFileInfo true 384). split; reflexivity.
Qed.

(** C4 (amended): first match wins when the scan reaches the line.  The
    file opens and its text is the lines [raws], each ended by a newline,
    then the line [raw], then either nothing or a newline and any bytes
    whatever.  Every line of [raws] and the line [raw] are scannable (no
    newline inside, fewer than 64 KiB).  As the scanner delivers them (one
    trailing carriage return removed), no line of [raws] is selected, and
    [raw] is not a comment, has five fields and passes the four field
    matches.  Then [searchFile] returns the record composed from [raw],
    the earliest matching line; what follows it in the file (further
    matching lines, over-long lines, a read error) plays no part. *)
Theorem earliest_match_returned
        (w : World) (p : Parser) (raws : list string) (raw tail : string)
        (rerr : option error) (t0 t1 t2 t3 t4 : string) :
  Open w (OrapassFile p)
  = Ok (mkFileData (terminated nl raws ++ raw ++ tail) rerr) ->
  tail = "" \/ (exists rest, tail = nl ++ rest) ->
  Forall scannable raws ->
  scannable raw ->
  (forall x, In x (map dropCR raws) -> tryLine p x = None) ->
  commentRe (dropCR raw) = false ->
  SplitN (dropCR raw) ":" 5 = [t0; t1; t2; t3; t4] ->
  chkForMatch (Host p) t0 = true ->
  chkForMatch (Port p) t1 = true ->
  chkForMatch (DbName p) t2 = true ->
  chkForMatch (Username p) t3 = true ->
  searchFile w p
  = (mkParser (pickParm (Host p) t0) (pickParm (Port p) t1)
              (pickParm (DbName p) t2) t3 t4 "" [] false, None).
Proof.
  intros Hopen Htail Hraws [Hfree Hlen] Hnone Hc Hsplit M0 M1 M2 M3.
  apply N.ltb_lt in Hlen.
  assert (Hsel : tryLine p (dropCR raw)
                 = Some (mkParser (pickParm (Host p) t0) (pickParm (Port p) t1)
                                  (pickParm (DbName p) t2) t3 t4 "" []
                                  false)).
  { apply tryLine_Some. split; [assumption|].
    exists t0, t1, t2, t3, t4. repeat (split; [assumption|]). reflexivity. }
  assert (Htokens : exists post,
             fst (scanFrom "" (terminated nl raws ++ raw ++ tail) rerr)
             = (map dropCR raws ++ dropCR raw :: post)%list).
  { rewrite (scanFrom_terminated raws (raw ++ tail) rerr Hraws). cbn [fst].
    destruct Htail as [->|(rest & ->)].
    - rewrite append_empty_r, (scanFrom_last raw "" rerr Hfree).
      simpl (append "" raw). rewrite Hlen.
      destruct raw as [|c raw]; [discriminate Hsplit|].
      exists []. reflexivity.
    - change (nl ++ rest) with (String "010" rest).
      rewrite (scanFrom_line raw "" rest rerr Hfree).
      simpl (append "" raw). rewrite Hlen.
      eexists. reflexivity. }
  destruct Htokens as (post & Htokens).
  apply (searchFile_found w p _ _ Hopen).
  unfold scanLines. cbn [bytes readErr]. rewrite Htokens.
  now apply scanLoop_first.
Qed.

(** In [longTailFile] the first entry answers although an over-long line
    and a second matching entry follow it. *)
Lemma earliest_match_returned_witness :
  searchFile (homeWorld 384 longTailFile)
             (mkParser "localhost" "1521" "emp" "scott" ""
                       "/home/scott/.orapass" [] false)
  = (mkParser "localhost" "1521" "emp" "scott" "tiger" "" [] false, None).
Proof.
  apply (earliest_match_returned
           (homeWorld 384 longTailFile)
           (mkParser "localhost" "1521" "emp" "scott" ""
                     "/home/scott/.orapass" [] false)
           ["# orapass"; "otherhost:1521:emp:scott:bear"]
           "localhost:1521:emp:scott:tiger"
           (nl ++ longLine ++ nl ++ "localhost:1521:*:scott:lion" ++ nl)
           None
           "localhost" "1521" "emp" "scott" "tiger");
    try reflexivity.
  - right. eexists. reflexivity.
  - repeat constructor.
  - split; [reflexivity|]. vm_compute. reflexivity.
  - intros x [<-|[<-|[]]]; reflexivity.
Defined.

End FirstMatch.
